(** * Archivist: a shallow embedding of [archivist.py]

    The script gathers Internet Archive metadata from command-line flags or
    from interactive prompts, enumerates the files below a folder and hands
    a remote-path -> local-path dictionary to the [internetarchive] client.

    Python dictionaries are finite maps ([gmap]); [print], [input] and the
    two client calls are recorded as events; exceptions (including the
    [SystemExit] raised by [sys.exit]) are results of a small monad. *)

From Stdlib Require Import Ascii String.
From stdpp Require Import gmap strings list fin_maps pretty.

Local Open Scope string_scope.

(** ** Python strings *)

Module Str.

Definition nl : string := String (ascii_of_nat 10) "".

(** [str.isspace] on the 8-bit characters: TAB..CR, FS..US and SPACE. *)
Definition is_space (c : ascii) : bool :=
  let n := nat_of_ascii c in
  ((9 <=? n)%nat && (n <=? 13)%nat) || ((28 <=? n)%nat && (n <=? 32)%nat).

Definition nonempty (s : string) : bool :=
  match s with EmptyString => false | String _ _ => true end.

Fixpoint lstrip (s : string) : string :=
  match s with
  | String c s' => if is_space c then lstrip s' else s
  | EmptyString => EmptyString
  end.

Fixpoint rstrip (s : string) : string :=
  match s with
  | String c s' =>
      let r := rstrip s' in
      if is_space c && negb (nonempty r) then EmptyString else String c r
  | EmptyString => EmptyString
  end.

(** [s.strip()] *)
Definition strip (s : string) : string := rstrip (lstrip s).

Definition lower_ascii (c : ascii) : ascii :=
  let n := nat_of_ascii c in
  if (65 <=? n)%nat && (n <=? 90)%nat then ascii_of_nat (n + 32) else c.

(** [s.lower()] *)
Fixpoint lower (s : string) : string :=
  match s with
  | String c s' => String (lower_ascii c) (lower s')
  | EmptyString => EmptyString
  end.

(** [sep.join(l)] with [sep = "/"] *)
Fixpoint join (l : list string) : string :=
  match l with
  | [] => ""
  | [x] => x
  | x :: l' => x +:+ "/" +:+ join l'
  end.

Definition is_slash (c : ascii) : bool := Ascii.eqb c "/"%char.

(** [s.split("/")] *)
Fixpoint split (s : string) : list string :=
  match s with
  | EmptyString => [""]
  | String c s' =>
      if is_slash c then "" :: split s'
      else match split s' with
           | h :: t => String c h :: t
           | [] => [String c ""]
           end
  end.

(** [s.lstrip("/")], together with the number of characters removed. *)
Fixpoint lstrip_slash (s : string) : nat * string :=
  match s with
  | String c s' =>
      if is_slash c then let '(n, r) := lstrip_slash s' in (S n, r)
      else (0, s)
  | EmptyString => (0, EmptyString)
  end.

Fixpoint has_slash (s : string) : bool :=
  match s with
  | String c s' => is_slash c || has_slash s'
  | EmptyString => false
  end.

End Str.

(** ** Python values held by the argument namespace and the metadata dict *)

Inductive value : Type :=
| VNone
| VStr (s : string)
| VBool (b : bool).

#[global] Instance value_eq_dec : EqDecision value.
Proof. solve_decision. Defined.

(** [bool(v)] *)
Definition truthy (v : value) : bool :=
  match v with
  | VNone => false
  | VStr s => Str.nonempty s
  | VBool b => b
  end.

(** [v is None] *)
Definition is_None (v : value) : bool :=
  match v with VNone => true | _ => false end.

(** [str(v)], as an f-string formats it *)
Definition str_value (v : value) : string :=
  match v with
  | VNone => "None"
  | VStr s => s
  | VBool true => "True"
  | VBool false => "False"
  end.

(** ** [pathlib.PurePosixPath] *)

Module Pathlib.

(** [anchor] is the root (["/"], ["//"] or [""] for a relative path) and
    [names] the components after it. *)
Record PurePath : Type := mkPath { anchor : string; names : list string }.

#[global] Instance PurePath_eq_dec : EqDecision PurePath.
Proof. solve_decision. Defined.

Definition keep_part (x : string) : bool :=
  Str.nonempty x && negb (String.eqb x ".").

(** [Path(s)]: exactly two leading slashes are kept as the root, any other
    positive number collapses to one; empty and ["."] components vanish. *)
Definition Path (s : string) : PurePath :=
  let '(n, r) := Str.lstrip_slash s in
  {| anchor := match n with 0 => "" | 2 => "//" | _ => "/" end;
     names := filter (λ x, Is_true (keep_part x)) (Str.split r) |}.

(** [str(p)] *)
Definition str (p : PurePath) : string :=
  match anchor p, names p with
  | EmptyString, [] => "."
  | a, l => a +:+ Str.join l
  end.

(** [p.name] *)
Definition name (p : PurePath) : string := List.last (names p) "".

(** [p / rel] for a relative tail of components *)
Definition joinpath (p : PurePath) (rel : list string) : PurePath :=
  {| anchor := anchor p; names := names p ++ rel |}.

Fixpoint strip_prefix (pre l : list string) : option (list string) :=
  match pre, l with
  | [], _ => Some l
  | x :: pre', y :: l' => if String.eqb x y then strip_prefix pre' l' else None
  | _ :: _, [] => None
  end.

(** [p.relative_to(other)]; [None] stands for the [ValueError]. *)
Definition relative_to (p other : PurePath) : option PurePath :=
  if String.eqb (anchor p) (anchor other) then
    match strip_prefix (names other) (names p) with
    | Some rel => Some {| anchor := ""; names := rel |}
    | None => None
    end
  else None.

End Pathlib.

(** ** The file system seen by [os.path.isdir] and [Path.rglob] *)

#[local] Unset Elimination Schemes.
Inductive node : Type :=
| File
| Special
| Dir (entries : list (string * node)).
#[local] Set Elimination Schemes.

(** [File] is a regular file, [Special] anything [is_file()] rejects that is
    not a directory (socket, fifo, device, dangling link). *)
Definition is_file (n : node) : bool :=
  match n with File => true | _ => false end.

Definition is_dir (n : node) : bool :=
  match n with Dir _ => true | _ => false end.

Fixpoint lookup_node (names : list string) (n : node) : option node :=
  match names with
  | [] => Some n
  | x :: names' =>
      match n with
      | Dir entries =>
          (fix find (es : list (string * node)) : option node :=
             match es with
             | [] => None
             | (y, c) :: es' =>
                 if String.eqb x y then lookup_node names' c else find es'
             end) entries
      | _ => None
      end
  end.

(** Everything strictly below a node, as (relative components, node). *)
Fixpoint descendants (n : node) : list (list string * node) :=
  match n with
  | Dir entries =>
      (fix go (es : list (string * node)) : list (list string * node) :=
         match es with
         | [] => []
         | (x, c) :: es' =>
             ([x], c) :: map (λ rk, (x :: rk.1, rk.2)) (descendants c) ++ go es'
         end) entries
  | _ => []
  end.

(** ** Exceptions, events and the effect monad *)

Inductive exn : Type :=
| AuthenticationError
| EOFError
| KeyError (k : string)
| ValueError (msg : string)
| OtherError (msg : string)
| SystemExit (code : nat).

(** [isinstance(e, Exception)]: [SystemExit] derives from [BaseException]. *)
Definition is_Exception (e : exn) : bool :=
  match e with SystemExit _ => false | _ => true end.

(** [str(e)] *)
Definition str_exn (e : exn) : string :=
  match e with
  | AuthenticationError => ""
  | EOFError => "EOF when reading a line"
  | KeyError k => "'" +:+ k +:+ "'"
  | ValueError msg => msg
  | OtherError msg => msg
  | SystemExit code => pretty code
  end.

Inductive event : Type :=
| Print (line : string)
| Input (prompt : string)
| GetItem (identifier : value)
| Rglob (target : string)
| Upload (identifier : value) (files : gmap string string)
         (metadata : gmap string value).

Inductive result (A : Type) : Type :=
| Ok (a : A)
| Raise (e : exn).
Arguments Ok {A} a.
Arguments Raise {A} e.

(** What a computation leaves behind: its result, the unread lines of
    standard input and the events it performed, oldest first. *)
Record Out (A : Type) : Type :=
  mkOut { res : result A; rest : list string; events : list event }.
Arguments mkOut {A} res rest events.
Arguments res {A} o.
Arguments rest {A} o.
Arguments events {A} o.

Definition Py (A : Type) : Type := list string → Out A.

#[global] Instance Py_ret : MRet Py := λ A a stdin, mkOut (Ok a) stdin [].

#[global] Instance Py_bind : MBind Py := λ A B f m stdin,
  match m stdin with
  | mkOut (Ok a) stdin' evs =>
      match f a stdin' with
      | mkOut r stdin'' evs' => mkOut r stdin'' (evs ++ evs')
      end
  | mkOut (Raise e) stdin' evs => mkOut (Raise e) stdin' evs
  end.

Definition emit (e : event) : Py unit := λ stdin, mkOut (Ok tt) stdin [e].

Definition print (line : string) : Py unit := emit (Print line).

Definition raise {A : Type} (e : exn) : Py A := λ stdin, mkOut (Raise e) stdin [].

(** [sys.exit(code)] *)
Definition sys_exit {A : Type} (code : nat) : Py A := raise (SystemExit code).

(** [input(prompt)]: one line of standard input, [EOFError] when none is left. *)
Definition input (prompt : string) : Py string := λ stdin,
  match stdin with
  | [] => mkOut (Raise EOFError) [] [Input prompt]
  | line :: stdin' => mkOut (Ok line) stdin' [Input prompt]
  end.

(** [try: body / except ...: handler]; a handler of [None] lets the
    exception through. *)
Definition try_except {A : Type} (body : Py A) (handler : exn → option (Py A))
  : Py A := λ stdin,
  match body stdin with
  | mkOut (Ok a) stdin' evs => mkOut (Ok a) stdin' evs
  | mkOut (Raise e) stdin' evs =>
      match handler e with
      | Some h =>
          match h stdin' with
          | mkOut r stdin'' evs' => mkOut r stdin'' (evs ++ evs')
          end
      | None => mkOut (Raise e) stdin' evs
      end
  end.

(** The exit status of the interpreter for the outcome of [main()]: an
    uncaught exception other than [SystemExit] prints a traceback and
    exits with status 1. *)
Definition exit_status {A : Type} (r : result A) : nat :=
  match r with
  | Ok _ => 0
  | Raise (SystemExit code) => code
  | Raise _ => 1
  end.

(** ** The environment of one invocation *)

Inductive failure : Type :=
| AuthFailure
| OtherFailure (msg : string).

Definition exn_of_failure (f : failure) : exn :=
  match f with
  | AuthFailure => AuthenticationError
  | OtherFailure msg => OtherError msg
  end.

Record Env : Type := mkEnv {
  (** [os.path.abspath] (it depends on the working directory) *)
  abspath : string → string;
  (** the directory tree below ["/"] *)
  fs : node;
  (** [__file__] *)
  script_file : string;
  (** [internetarchive.get_item]: [None] when it returns an item *)
  get_item_outcome : value → option failure;
  (** [Item.upload]: [None] when it returns normally *)
  upload_outcome :
    value → gmap string string → gmap string value → option failure
}.

(** [argparse.Namespace] produced by [parser.parse_args()] *)
Record Namespace : Type := mkArgs {
  folder : string;
  identifier : option string;
  title : option string;
  creator : option string;
  mediatype : option string;
  description : option string;
  subjects : option string;
  year : option string;
  yes : bool
}.

Definition of_arg (o : option string) : value :=
  match o with Some s => VStr s | None => VNone end.

(** [getattr(args, name, default)] *)
Definition getattr (args : Namespace) (name : string) (default : value) : value :=
  if String.eqb name "folder" then VStr (folder args)
  else if String.eqb name "identifier" then of_arg (identifier args)
  else if String.eqb name "title" then of_arg (title args)
  else if String.eqb name "creator" then of_arg (creator args)
  else if String.eqb name "mediatype" then of_arg (mediatype args)
  else if String.eqb name "description" then of_arg (description args)
  else if String.eqb name "subjects" then of_arg (subjects args)
  else if String.eqb name "year" then of_arg (year args)
  else if String.eqb name "yes" then VBool (yes args)
  else default.

(** ** The program *)

Section Program.

Variable env : Env.

(** [os.path.isdir(path)] *)
Definition isdir (path : string) : bool :=
  match lookup_node (Pathlib.names (Pathlib.Path path)) (fs env) with
  | Some n => is_dir n
  | None => false
  end.

(** [p.rglob("*")], each path with the node it names. *)
Definition rglob (p : Pathlib.PurePath) : list (Pathlib.PurePath * node) :=
  match lookup_node (Pathlib.names p) (fs env) with
  | Some n => map (λ rk, (Pathlib.joinpath p rk.1, rk.2)) (descendants n)
  | None => []
  end.

(** [get_item(identifier)]; the item is represented by its identifier. *)
Definition get_item (identifier : value) : Py value :=
  emit (GetItem identifier);;
  match get_item_outcome env identifier with
  | None => mret identifier
  | Some f => raise (exn_of_failure f)
  end.

(** [item.upload(files, metadata=metadata, verbose=True)] *)
Definition item_upload (item : value) (files : gmap string string)
    (metadata : gmap string value) : Py unit :=
  emit (Upload item files metadata);;
  match upload_outcome env item files metadata with
  | None => mret tt
  | Some f => raise (exn_of_failure f)
  end.

(** The [while True] loop of [get_user_input] for one key: every
    iteration reads one line, so the loop is structural in the input. *)
Fixpoint prompt_loop (key prompt : string) (required : bool)
    (metadata : gmap string value) (stdin : list string)
  : Out (gmap string value) :=
  match stdin with
  | [] => mkOut (Raise EOFError) [] [Input (prompt +:+ ": ")]
  | line :: stdin' =>
      let value := Str.strip line in
      if Str.nonempty value || negb required then
        mkOut (Ok (if Str.nonempty value
                   then <[key := VStr value]> metadata else metadata))
              stdin' [Input (prompt +:+ ": ")]
      else
        match prompt_loop key prompt required metadata stdin' with
        | mkOut r stdin'' evs =>
            mkOut r stdin''
                  (Input (prompt +:+ ": ")
                   :: Print "❌ This field is required." :: evs)
        end
  end.

Fixpoint prompt_all (metadata_keys : list (string * string * bool))
    (metadata : gmap string value) : Py (gmap string value) :=
  match metadata_keys with
  | [] => mret metadata
  | (key, prompt, required) :: keys' =>
      metadata ← prompt_loop key prompt required metadata;
      prompt_all keys' metadata
  end.

Definition get_user_input (metadata_keys : list (string * string * bool))
  : Py (gmap string value) :=
  print "📚 Please provide the metadata for your Archive.org item.";;
  prompt_all metadata_keys ∅.

(** The list comprehension of [upload_folder]. *)
Definition files_to_upload (target_folder : string) : list string :=
  let script_name := Pathlib.name (Pathlib.Path (script_file env)) in
  map (λ pk, Pathlib.str pk.1)
      (filter (λ pk, Is_true (is_file pk.2
                              && negb (String.eqb (Pathlib.name pk.1) script_name)))
              (rglob (Pathlib.Path target_folder))).

(** The loop filling [files_for_upload_dict]. *)
Fixpoint build_dict (base_folder_path : Pathlib.PurePath)
    (files : list string) (files_for_upload_dict : gmap string string)
  : Py (gmap string string) :=
  match files with
  | [] => mret files_for_upload_dict
  | local_file_path_str :: files' =>
      let local_path := Pathlib.Path local_file_path_str in
      match Pathlib.relative_to local_path base_folder_path with
      | Some remote_path =>
          build_dict base_folder_path files'
            (<[Pathlib.str remote_path := local_file_path_str]>
               files_for_upload_dict)
      | None =>
          raise (ValueError ("'" +:+ Pathlib.str local_path
                             +:+ "' is not in the subpath of '"
                             +:+ Pathlib.str base_folder_path +:+ "'"))
      end
  end.

Definition upload_handler (e : exn) : option (Py unit) :=
  match e with
  | AuthenticationError =>
      Some (print (Str.nl +:+ "❌ Authentication Error: Could not connect to Archive.org.");;
            print "Please run 'ia configure' in your terminal to set up your credentials.")
  | _ =>
      if is_Exception e
      then Some (print (Str.nl +:+ "❌ An unexpected error occurred: " +:+ str_exn e))
      else None
  end.

Definition upload_folder (identifier : value) (metadata : gmap string value)
    (target_folder : string) (non_interactive : bool) : Py unit :=
  print (Str.nl +:+ "🚀 Starting upload process...");;
  print ("→ Target Identifier: " +:+ str_value identifier);;
  try_except
    (item ← get_item identifier;
     emit (Rglob target_folder);;
     let files := files_to_upload target_folder in
     match files with
     | [] => print "No files found to upload (excluding the script itself)."
     | _ :: _ =>
         print ("Found " +:+ pretty (length files)
                +:+ " file(s) to potentially upload.");;
         proceed ←
           (if negb non_interactive then
              confirm ← input "Do you want to proceed with the upload? (y/n): ";
              if String.eqb (Str.lower confirm) "y" then mret true
              else print "Upload cancelled by user.";; mret false
            else mret true);
         if proceed : bool then
           print "Building file list for upload...";;
           files_for_upload_dict ←
             build_dict (Pathlib.Path target_folder) files ∅;
           print ("Uploading " +:+ pretty (size files_for_upload_dict)
                  +:+ " files with their directory structure...");;
           item_upload item files_for_upload_dict metadata;;
           print (Str.nl +:+ "✅ Upload process complete.");;
           print ("View your item at: https://archive.org/details/"
                  +:+ str_value identifier)
         else mret tt
     end)
    upload_handler.

Definition metadata_prompts : list (string * string * bool) :=
  [ ("identifier", "Enter a unique identifier", true);
    ("title", "Enter a title", true);
    ("creator", "Enter the creator/author", true);
    ("mediatype", "Enter media type (e.g., texts, movies, data)", true);
    ("description", "Enter a description (optional)", false);
    ("subject", "Enter subjects/tags, comma-separated (optional)", false);
    ("date", "Enter year (optional)", false) ].

(** [if v: metadata[key] = v] *)
Definition set_if (key : string) (v : value) (metadata : gmap string value)
  : gmap string value :=
  if truthy v then <[key := v]> metadata else metadata.

(** [metadata.pop(key)] *)
Definition pop (key : string) (metadata : gmap string value)
  : Py (value * gmap string value) :=
  match metadata !! key with
  | Some v => mret (v, delete key metadata)
  | None => raise (KeyError key)
  end.

(** The "Combine CLI args and user input" loop of [main]. *)
Definition combine_cli (args : Namespace) (metadata : gmap string value)
  : gmap string value :=
  foldl (λ metadata p,
           let key := p.1.1 in
           if truthy (getattr args key VNone) then
             let meta_key :=
               if String.eqb key "subjects" then "subject"
               else if String.eqb key "year" then "date" else key in
             <[meta_key := getattr args key VNone]> metadata
           else metadata)
        metadata metadata_prompts.

(** The metadata part of [main]: the dict assembled from the flags and,
    when a required flag is missing, from the prompts. *)
Definition resolve_metadata (args : Namespace) : Py (gmap string value) :=
  st ←
    (if truthy (of_arg (identifier args)) && truthy (of_arg (title args))
        && truthy (of_arg (creator args)) && truthy (of_arg (mediatype args))
     then
       mret (set_if "date" (of_arg (year args))
               (set_if "subject" (of_arg (subjects args))
                  (set_if "description" (of_arg (description args))
                     (<["mediatype" := of_arg (mediatype args)]>
                        (<["creator" := of_arg (creator args)]>
                           (<["title" := of_arg (title args)]>
                              (<["identifier" := of_arg (identifier args)]>
                                 ∅)))))),
             true)
     else if yes args then
       print "❌ Error: Cannot run in non-interactive mode (-y) without providing all required metadata via arguments.";;
       print "Required: --identifier, --title, --creator, --mediatype";;
       sys_exit 1
     else mret (∅, false));
  let '(metadata, cli_metadata_provided) := st in
  if negb cli_metadata_provided then
    let missing_prompts :=
      filter (λ p, Is_true (is_None (getattr args p.1.1 VNone)))
             metadata_prompts in
    user_metadata ← get_user_input missing_prompts;
    mret (user_metadata ∪ combine_cli args metadata)
  else mret metadata.

Definition main (args : Namespace) : Py unit :=
  let target_folder := abspath env (folder args) in
  (if negb (isdir target_folder) then
     print ("❌ Error: Folder not found at '" +:+ target_folder +:+ "'");;
     sys_exit 1
   else mret tt);;
  print ("📁 Preparing to upload contents of: " +:+ target_folder);;
  metadata ← resolve_metadata args;
  popped ← pop "identifier" metadata;
  upload_folder popped.1 popped.2 target_folder (yes args).

End Program.

(** * Vocabulary of the statements *)

(** ** Messages and event classes *)

Definition msg_banner : string :=
  "📚 Please provide the metadata for your Archive.org item.".
Definition msg_required : string := "❌ This field is required.".
Definition msg_start : string := Str.nl +:+ "🚀 Starting upload process...".
Definition msg_no_files : string :=
  "No files found to upload (excluding the script itself).".
Definition msg_cancelled : string := "Upload cancelled by user.".
Definition msg_configure : string :=
  "Please run 'ia configure' in your terminal to set up your credentials.".
Definition msg_flags : string :=
  "Required: --identifier, --title, --creator, --mediatype".
Definition confirm_prompt : string :=
  "Do you want to proceed with the upload? (y/n): ".

(** Events that only [upload_folder] performs. *)
Definition stage_event (e : event) : bool :=
  match e with
  | GetItem _ | Rglob _ | Upload _ _ _ => true
  | Input p => String.eqb p confirm_prompt
  | Print s =>
      String.eqb s msg_start || String.eqb s msg_no_files
      || String.eqb s msg_cancelled || String.eqb s msg_configure
  end.

(** Events of [upload_folder] that come after the item has been opened:
    the directory walk, the confirmation prompt and the two early returns. *)
Definition late_event (e : event) : bool :=
  match e with
  | Rglob _ => true
  | Input p => String.eqb p confirm_prompt
  | Print s => String.eqb s msg_no_files || String.eqb s msg_cancelled
  | _ => false
  end.

(** Events of [get_user_input]: its banner, its prompts, its complaint. *)
Definition metadata_prompting (e : event) : bool :=
  match e with
  | Print s => String.eqb s msg_banner || String.eqb s msg_required
  | Input p => negb (String.eqb p confirm_prompt)
  | _ => false
  end.

Definition is_upload (e : event) : bool :=
  match e with Upload _ _ _ => true | _ => false end.

(** ** The prompts *)

Definition all_required (args : Namespace) : bool :=
  truthy (of_arg (identifier args)) && truthy (of_arg (title args))
  && truthy (of_arg (creator args)) && truthy (of_arg (mediatype args)).

(** The dict built on the all-flags path of [main]. *)
Definition flags_metadata (args : Namespace) : gmap string value :=
  set_if "date" (of_arg (year args))
    (set_if "subject" (of_arg (subjects args))
       (set_if "description" (of_arg (description args))
          (<["mediatype" := of_arg (mediatype args)]>
             (<["creator" := of_arg (creator args)]>
                (<["title" := of_arg (title args)]>
                   (<["identifier" := of_arg (identifier args)]> ∅)))))).

(** [missing_prompts] of [main]. *)
Definition missing_prompts (args : Namespace) : list (string * string * bool) :=
  filter (λ p, Is_true (is_None (getattr args p.1.1 VNone))) metadata_prompts.

(** ** [get_user_input] *)

(** What the metadata part of [main] can print or ask. *)
Definition resolver_event (e : event) : Prop :=
  e = Print "❌ Error: Cannot run in non-interactive mode (-y) without providing all required metadata via arguments."
  ∨ e = Print msg_flags ∨ e = Print msg_banner ∨ e = Print msg_required
  ∨ ∃ p, p ∈ metadata_prompts ∧ e = Input (p.1.2 +:+ ": ").

(** ** Concrete invocations *)

Module Scenario.

(** [/data] holds [a.txt] and [sub/b.txt], [/empty] nothing; the script
    itself lives in [/opt]. *)
Definition tree : node :=
  Dir [("data", Dir [("a.txt", File); ("sub", Dir [("b.txt", File)])]);
       ("empty", Dir []);
       ("opt", Dir [("archivist.py", File)])].

(** The folder arguments below are absolute and normalised already. *)
Definition online : Env :=
  mkEnv (λ path, path) tree "/opt/archivist.py" (λ _, None) (λ _ _ _, None).

(** No credentials configured: the upload call is refused. *)
Definition logged_out : Env :=
  mkEnv (λ path, path) tree "/opt/archivist.py"
        (λ _, None) (λ _ _ _, Some AuthFailure).

(** [archivist.py /data -i my-item -t T -c C -m texts --subjects a,b --year 1999 -y] *)
Definition all_flags : Namespace :=
  mkArgs "/data" (Some "my-item") (Some "T") (Some "C") (Some "texts")
         None (Some "a,b") (Some "1999") true.

(** The same on the empty folder. *)
Definition all_flags_empty_folder : Namespace :=
  mkArgs "/empty" (Some "my-item") (Some "T") (Some "C") (Some "texts")
         None (Some "a,b") (Some "1999") true.

(** [archivist.py /data -i my-item -t T -c C -m texts]: the confirmation
    is asked for. *)
Definition required_flags : Namespace :=
  mkArgs "/data" (Some "my-item") (Some "T") (Some "C") (Some "texts")
         None None None false.

Definition data_files : gmap string string :=
  <["a.txt" := "/data/a.txt"]> (<["sub/b.txt" := "/data/sub/b.txt"]> ∅).

Definition all_flags_record : gmap string value :=
  <["title" := VStr "T"]>
    (<["creator" := VStr "C"]>
       (<["mediatype" := VStr "texts"]>
          (<["subject" := VStr "a,b"]> (<["date" := VStr "1999"]> ∅)))).

End Scenario.

(** ** Flags given as the empty string *)

Module Slip.

(** [archivist.py /data -i "" -t T -c C -m texts] *)
Definition empty_identifier : Namespace :=
  mkArgs "/data" (Some "") (Some "T") (Some "C") (Some "texts")
         None None None false.

(** The same invocation without [-i]. *)
Definition absent_identifier : Namespace :=
  mkArgs "/data" None (Some "T") (Some "C") (Some "texts")
         None None None false.

(** [archivist.py /data --subjects a,b --year 1999] *)
Definition subjects_and_year : Namespace :=
  mkArgs "/data" None None None None None (Some "a,b") (Some "1999") false.

(** Answers to the seven prompts (the optional ones left empty), then to
    the confirmation. *)
Definition answers : list string :=
  ["my-item"; "T"; "C"; "texts"; ""; ""; ""; "y"].

Definition answers_record : gmap string value :=
  <["identifier" := VStr "my-item"]>
    (<["title" := VStr "T"]>
       (<["creator" := VStr "C"]> (<["mediatype" := VStr "texts"]> ∅))).

End Slip.

(** ** One prompt *)

(** A line that is empty once stripped. *)
Definition blank (line : string) : Prop := Str.strip line = "".

(** ** Paths and their text *)

(** A file name as a directory can hold it: not empty, not ["."], without
    a slash. *)
Definition valid_name (x : string) : bool :=
  Pathlib.keep_part x && negb (Str.has_slash x).

(** An absolute path whose components are valid names. *)
Definition wf_path (p : Pathlib.PurePath) : bool :=
  (String.eqb (Pathlib.anchor p) "/" || String.eqb (Pathlib.anchor p) "//")
  && forallb valid_name (Pathlib.names p).

(** ** Directory trees *)

(** Every entry name in the tree is a valid file name. *)
Fixpoint wf_node (n : node) : bool :=
  match n with
  | Dir entries =>
      (fix all (es : list (string * node)) : bool :=
         match es with
         | [] => true
         | (x, c) :: es' => valid_name x && wf_node c && all es'
         end) entries
  | _ => true
  end.

Definition wf_rel (rel : list string) : Prop :=
  rel ≠ [] ∧ Forall (λ x, valid_name x = true) rel.

(** ** The enumeration and the dictionary *)

(** [Path(__file__).name] *)
Definition script_name (env : Env) : string :=
  Pathlib.name (Pathlib.Path (script_file env)).

(** The regular files below a directory whose name is not the script's,
    by their components relative to it. *)
Definition kept_files (script : string) (dir : node) : list (list string) :=
  (filter (λ rk, Is_true (is_file rk.2
                          && negb (String.eqb (List.last rk.1 "") script)))
          (descendants dir)).*1.

(** The dictionary handed to the upload call, or the exception that kept
    it from being built. *)
Definition file_mapping (env : Env) (target_folder : string)
  : result (gmap string string) :=
  res (build_dict (Pathlib.Path target_folder)
         (files_to_upload env target_folder) ∅ []).

(** The dictionary [build_dict] makes of well-formed files. *)
Definition insert_file (base : Pathlib.PurePath) (d : gmap string string)
    (rel : list string) : gmap string string :=
  <[Str.join rel := Pathlib.str (Pathlib.joinpath base rel)]> d.

(** ** The keys of the mapping *)

(** The keys as the specification words them: the relative paths of the
    regular files below the target folder, minus the tool's own entry
    file. *)
Definition spec_keys (env : Env) (target_folder : string) : gset string :=
  let base := Pathlib.Path target_folder in
  match lookup_node (Pathlib.names base) (fs env) with
  | Some dir =>
      list_to_set
        (Str.join
         <$> filter (λ rel, Pathlib.joinpath base rel
                            ≠ Pathlib.Path (script_file env))
                    (filter (λ rk, Is_true (is_file rk.2)) (descendants dir)).*1)
  | None => ∅
  end.

Module Namesake.

(** [/data] holds [a.txt] and [sub/archivist.py], a file that merely has
    the script's name; the script that runs is [/opt/archivist.py]. *)
Definition tree : node :=
  Dir [("data", Dir [("a.txt", File); ("sub", Dir [("archivist.py", File)])]);
       ("opt", Dir [("archivist.py", File)])].

Definition env : Env :=
  mkEnv (λ path, path) tree "/opt/archivist.py" (λ _, None) (λ _ _ _, None).

Definition mapping : gmap string string := {["a.txt" := "/data/a.txt"]}.

End Namesake.

(** ** More event classes *)

Definition is_input (e : event) : bool :=
  match e with Input _ => true | _ => false end.

Definition is_get_item (e : event) : bool :=
  match e with GetItem _ => true | _ => false end.

(** The last two lines of a successful upload. *)
Definition msg_complete : string := Str.nl +:+ "✅ Upload process complete.".
Definition msg_view (identifier : value) : string :=
  "View your item at: https://archive.org/details/" +:+ str_value identifier.

(** The line the catch-all handler prints for a message. *)
Definition msg_unexpected (text : string) : string :=
  Str.nl +:+ "❌ An unexpected error occurred: " +:+ text.

(** ** A client that cannot reach the service *)

Module Outage.

(** Opening an item fails with a connection error. *)
Definition offline : Env :=
  mkEnv (λ path, path) Scenario.tree "/opt/archivist.py"
        (λ _, Some (OtherFailure "Connection refused")) (λ _ _ _, None).

(** The item opens, the upload call fails half-way. *)
Definition broken_pipe : Env :=
  mkEnv (λ path, path) Scenario.tree "/opt/archivist.py"
        (λ _, None) (λ _ _ _, Some (OtherFailure "Broken pipe")).

End Outage.

(** ** A session at the prompts *)

Module Typing.

(** Seven lines typed at the seven prompts: a blank one first, then the
    answers, padded the way people type them. *)
Definition lines : list string :=
  [""; " my-item "; "A title"; "Someone"; "texts"; "";
   "maps, charts"; "1999"].

Definition record : gmap string value :=
  <["identifier" := VStr "my-item"]>
    (<["title" := VStr "A title"]>
       (<["creator" := VStr "Someone"]>
          (<["mediatype" := VStr "texts"]>
             (<["subject" := VStr "maps, charts"]>
                (<["date" := VStr "1999"]> ∅))))).

End Typing.

(** ** The record and its fields *)

(** The keys of the record that describe the item; [identifier] names it. *)
Definition descriptive_keys : list string :=
  ["title"; "creator"; "mediatype"; "description"; "subject"; "date"].

(** The flags whose attribute name is also the key of the record. *)
Definition like_named_keys : list string :=
  ["identifier"; "title"; "creator"; "mediatype"; "description"].

(** A value that is a non-empty string. *)
Definition filled (v : value) : Prop := ∃ s, v = VStr s ∧ s ≠ "".

(** What a flag contributes where the code tests its truth: its value when
    it is given and not empty. *)
Definition given (o : option string) : option value :=
  if truthy (of_arg o) then Some (of_arg o) else None.

(** [archivist.py /data -i my-item -m texts --description ""]: title and
    creator are left to the prompts. *)
Module Mixed.

Definition args : Namespace :=
  mkArgs "/data" (Some "my-item") None None (Some "texts")
         (Some "") None None false.

Definition lines : list string := ["A title"; "Someone"; ""; "1999"; "y"].

Definition record : gmap string value :=
  <["identifier" := VStr "my-item"]>
    (<["title" := VStr "A title"]>
       (<["creator" := VStr "Someone"]>
          (<["mediatype" := VStr "texts"]> (<["date" := VStr "1999"]> ∅)))).

Definition metadata : gmap string value :=
  <["title" := VStr "A title"]>
    (<["creator" := VStr "Someone"]>
       (<["mediatype" := VStr "texts"]> (<["date" := VStr "1999"]> ∅))).

End Mixed.

(** ** [--yes] with flags missing *)

Module Yes.


End Yes.

(** ** Directories as a file system has them *)

(** No directory of the tree lists a name twice. *)
Fixpoint distinct_names (n : node) : bool :=
  match n with
  | Dir entries =>
      (fix all (es : list (string * node)) : bool :=
         match es with
         | [] => true
         | (x, c) :: es' =>
             forallb (λ yc, negb (String.eqb x yc.1)) es'
             && distinct_names c && all es'
         end) entries
  | _ => true
  end.

(** ** The prompts of a session *)

(** The prompts of [keys] in order, the one of the [i]-th key shown
    [counts !! i] times. *)
Definition shown (keys : list (string * string * bool)) (counts : list nat)
  : list event :=
  concat (zip_with (λ p n, replicate n (Input (p.1.2 +:+ ": "))) keys counts).

(** * Facts about the program *)

(** ** Reduction of monadic code *)

Ltac run_py :=
  cbv beta iota zeta delta
    [mbind mret Py_bind Py_ret try_except emit print raise sys_exit get_item
     item_upload input res rest events upload_handler is_Exception
     exn_of_failure negb pop fst snd];
  cbn [app].

Ltac elem_cases H :=
  cbn [events] in H;
  repeat match type of H with
    | _ ∈ [] => apply elem_of_nil in H; destruct H
    | _ ∈ _ :: _ => apply elem_of_cons in H; destruct H as [H|H]
    end;
  try discriminate H.

Lemma Forall_filter_keep {A} (P : A → Prop) (Q : A → Prop)
    `{!∀ x, Decision (Q x)} (l : list A) :
  Forall P l → Forall P (filter Q l).
Proof.
  rewrite !Forall_forall. intros HP x [_ Hx]%list_elem_of_filter. auto.
Qed.

(** ** The prompts *)

Lemma resolve_metadata_eq args stdin :
  resolve_metadata args stdin =
  if all_required args then mkOut (Ok (flags_metadata args)) stdin []
  else if yes args then
    mkOut (Raise (SystemExit 1)) stdin
      [Print "❌ Error: Cannot run in non-interactive mode (-y) without providing all required metadata via arguments.";
       Print msg_flags]
  else
    match prompt_all (missing_prompts args) ∅ stdin with
    | mkOut (Ok user_metadata) stdin' evs =>
        mkOut (Ok (user_metadata ∪ combine_cli args ∅)) stdin'
              (Print msg_banner :: evs)
    | mkOut (Raise e) stdin' evs =>
        mkOut (Raise e) stdin' (Print msg_banner :: evs)
    end.
Proof.
  unfold resolve_metadata, all_required, flags_metadata, missing_prompts,
    get_user_input.
  destruct (_ && _); [reflexivity|].
  destruct (yes args); [reflexivity|].
  run_py. destruct (prompt_all _ _ _) as [[um|e] st ev]; [|reflexivity].
  by rewrite app_nil_r.
Qed.

Lemma main_eq env args stdin :
  main env args stdin =
  let target_folder := abspath env (folder args) in
  if isdir env target_folder then
    let preparing :=
      Print ("📁 Preparing to upload contents of: " +:+ target_folder) in
    match resolve_metadata args stdin with
    | mkOut (Ok record) stdin' evs =>
        match record !! "identifier" with
        | Some id =>
            match upload_folder env id (delete "identifier" record)
                    target_folder (yes args) stdin' with
            | mkOut r stdin'' evs' => mkOut r stdin'' (preparing :: evs ++ evs')
            end
        | None =>
            mkOut (Raise (KeyError "identifier")) stdin' (preparing :: evs)
        end
    | mkOut (Raise e) stdin' evs => mkOut (Raise e) stdin' (preparing :: evs)
    end
  else
    mkOut (Raise (SystemExit 1)) stdin
      [Print ("❌ Error: Folder not found at '" +:+ target_folder +:+ "'")].
Proof.
  unfold main. destruct (isdir env _); [|reflexivity].
  run_py. destruct (resolve_metadata args stdin) as [[record|e] st ev];
    [|reflexivity].
  destruct (record !! "identifier"); [|by rewrite app_nil_r].
  by destruct (upload_folder _ _ _ _ _ _).
Qed.

(** ** [get_user_input] *)

Lemma prompt_loop_events key prompt required metadata stdin e :
  e ∈ events (prompt_loop key prompt required metadata stdin) →
  e = Input (prompt +:+ ": ") ∨ e = Print msg_required.
Proof.
  induction stdin as [|line stdin IH]; cbn [prompt_loop].
  - intros H. elem_cases H. by left.
  - destruct (_ || _).
    + intros H. elem_cases H. by left.
    + destruct (prompt_loop _ _ _ _ stdin) as [r st evs]. cbn [events] in *.
      intros H. apply elem_of_cons in H as [->|H]; [by left|].
      apply elem_of_cons in H as [->|H]; [by right|]. auto.
Qed.

Lemma prompt_all_events keys metadata stdin e :
  e ∈ events (prompt_all keys metadata stdin) →
  e = Print msg_required ∨ ∃ p, p ∈ keys ∧ e = Input (p.1.2 +:+ ": ").
Proof.
  revert metadata stdin.
  induction keys as [|[[key prompt] required] keys IH]; intros metadata stdin.
  - cbn. intros H. elem_cases H.
  - cbn [prompt_all]. run_py.
    pose proof (prompt_loop_events key prompt required metadata stdin e) as H1.
    destruct (prompt_loop key prompt required metadata stdin) as [[md|x] st evs];
      cbn [events] in *.
    + specialize (IH md st).
      destruct (prompt_all keys md st) as [r st' evs']. cbn [events] in *.
      intros [H|H]%elem_of_app.
      * destruct (H1 H) as [->| ->]; [right|by left].
        eexists; split; [apply list_elem_of_here|reflexivity].
      * destruct (IH H) as [->|(p & Hp & ->)]; [by left|right].
        eexists; split; [apply list_elem_of_further, Hp|reflexivity].
    + intros H. destruct (H1 H) as [->| ->]; [right|by left].
      eexists; split; [apply list_elem_of_here|reflexivity].
Qed.

Lemma resolve_metadata_events args stdin e :
  e ∈ events (resolve_metadata args stdin) → resolver_event e.
Proof.
  rewrite resolve_metadata_eq. unfold resolver_event.
  destruct (all_required args).
  { intros H. elem_cases H. }
  destruct (yes args).
  { intros H. elem_cases H; auto. }
  pose proof (prompt_all_events (missing_prompts args) ∅ stdin e) as H1.
  destruct (prompt_all _ _ _) as [[um|x] st evs]; cbn [events] in *;
    (intros H; apply elem_of_cons in H as [->|H]; [auto|];
     destruct (H1 H) as [->|(p & [_ Hp]%list_elem_of_filter & ->)];
     [auto|]; do 4 right; eauto).
Qed.

Lemma resolver_event_quiet e :
  resolver_event e →
  stage_event e = false ∧ late_event e = false ∧ is_upload e = false.
Proof.
  intros [->|[->|[->|[->|(p & Hp & ->)]]]]; try (split_and!; reflexivity).
  unfold metadata_prompts in Hp. elem_cases Hp; subst p; split_and!; reflexivity.
Qed.

(** ** [upload_folder] *)

(** Filling the dictionary neither reads input nor performs events, and can
    only fail with the [ValueError] of [relative_to]. *)
Lemma build_dict_pure base files d stdin :
  ∃ r, build_dict base files d stdin = mkOut r stdin [] ∧
       (∀ e, r = Raise e → ∃ msg, e = ValueError msg).
Proof.
  revert d. induction files as [|f files IH]; intros d; cbn [build_dict].
  - eexists; split; [reflexivity|]. intros e He. discriminate.
  - destruct (Pathlib.relative_to _ _); [apply IH|].
    eexists; split; [reflexivity|]. intros e [= <-]. eauto.
Qed.

Ltac upload_step :=
  match goal with
  | |- context [get_item_outcome ?e ?i] =>
      destruct (get_item_outcome e i) as [[|?]|] eqn:?
  | |- context [upload_outcome ?e ?i ?f ?m] =>
      destruct (upload_outcome e i f m) as [[|?]|] eqn:?
  | |- context [match files_to_upload ?e ?t with _ => _ end] =>
      destruct (files_to_upload e t) as [|? ?] eqn:?
  | |- context [build_dict ?b ?f ?d ?s] =>
      let H := fresh in
      let E := fresh in
      destruct (build_dict_pure b f d s) as ([?|?] & E & H); rewrite E;
      [clear H | destruct (H _ eq_refl) as [? ->]; clear H]
  | |- context [if ?b then _ else _] => is_var b; destruct b
  | |- context [match ?s with [] => _ | _ :: _ => _ end] => is_var s; destruct s
  | |- context [String.eqb ?a ?b] => destruct (String.eqb a b) eqn:?
  end;
  run_py.

(** Case analysis over every path through [upload_folder]. *)
Ltac upload_cases := unfold upload_folder; run_py; repeat upload_step.

(** No exception leaves [upload_folder]. *)
Lemma upload_folder_res env identifier metadata target ni stdin :
  res (upload_folder env identifier metadata target ni stdin) = Ok tt.
Proof. upload_cases; reflexivity. Qed.

(** It starts by announcing itself and opening the item. *)
Lemma upload_folder_head env identifier metadata target ni stdin :
  ∃ tail,
    events (upload_folder env identifier metadata target ni stdin) =
    Print msg_start
    :: Print ("→ Target Identifier: " +:+ str_value identifier)
    :: GetItem identifier :: tail.
Proof. upload_cases; eexists; reflexivity. Qed.

Lemma upload_folder_get_item env identifier metadata target ni stdin i :
  GetItem i ∈ events (upload_folder env identifier metadata target ni stdin) →
  i = identifier.
Proof. upload_cases; intros Hin; elem_cases Hin; congruence. Qed.

Lemma upload_folder_rglob env identifier metadata target ni stdin t :
  Rglob t ∈ events (upload_folder env identifier metadata target ni stdin) →
  t = target ∧ get_item_outcome env identifier = None.
Proof. upload_cases; intros Hin; elem_cases Hin; split; congruence. Qed.

(** The one upload call passes the identifier as item, the metadata it was
    given, and the dictionary [build_dict] made of the enumerated files. *)
Lemma upload_folder_upload env identifier metadata target ni stdin i f m :
  Upload i f m ∈ events (upload_folder env identifier metadata target ni stdin) →
  i = identifier ∧ m = metadata ∧
  ∃ stdin', build_dict (Pathlib.Path target) (files_to_upload env target) ∅ stdin'
            = mkOut (Ok f) stdin' [].
Proof.
  upload_cases; intros Hin; elem_cases Hin;
    injection Hin as -> -> ->; split_and!; try reflexivity; eauto.
Qed.

Lemma upload_folder_no_files env identifier metadata target ni stdin :
  files_to_upload env target = [] →
  Forall (λ e, is_upload e = false)
         (events (upload_folder env identifier metadata target ni stdin))
  ∧ (get_item_outcome env identifier = None →
     upload_folder env identifier metadata target ni stdin =
     mkOut (Ok tt) stdin
       [Print msg_start;
        Print ("→ Target Identifier: " +:+ str_value identifier);
        GetItem identifier; Rglob target; Print msg_no_files]).
Proof.
  intros Hnil. unfold upload_folder. run_py.
  destruct (get_item_outcome env identifier) as [[|msg]|]; run_py;
    rewrite ?Hnil; run_py;
    (split; [repeat constructor | intros; (reflexivity || discriminate)]).
Qed.

Lemma upload_folder_auth env identifier metadata target ni stdin :
  get_item_outcome env identifier = Some AuthFailure
  ∨ (∃ i f m,
        Upload i f m ∈ events (upload_folder env identifier metadata target ni stdin)
        ∧ upload_outcome env i f m = Some AuthFailure) →
  last (events (upload_folder env identifier metadata target ni stdin))
  = Some (Print msg_configure).
Proof.
  upload_cases; intros [Hin|(i & f & m & Hin & Ho)]; try discriminate Hin;
    try reflexivity; elem_cases Hin; injection Hin as -> -> ->; congruence.
Qed.

Lemma upload_folder_late env identifier metadata target ni stdin pre e post :
  events (upload_folder env identifier metadata target ni stdin)
  = (pre ++ e :: post)%list →
  late_event e = true → GetItem identifier ∈ pre.
Proof.
  destruct (upload_folder_head env identifier metadata target ni stdin)
    as [tail ->].
  intros Heq Hlate.
  destruct pre as [|e1 pre]; [injection Heq as <- _; discriminate Hlate|].
  destruct pre as [|e2 pre];
    [injection Heq as _ <- _; destruct identifier as [|?|[]]; discriminate Hlate|].
  destruct pre as [|e3 pre]; [injection Heq as _ _ <- _; discriminate Hlate|].
  injection Heq as _ _ <- _. do 2 apply list_elem_of_further. apply list_elem_of_here.
Qed.

Lemma upload_folder_metadata_prompting env identifier metadata target ni stdin :
  Forall (λ e, metadata_prompting e = false)
         (events (upload_folder env identifier metadata target ni stdin)).
Proof.
  upload_cases; repeat constructor;
    destruct identifier as [|?|[]]; reflexivity.
Qed.

(** ** [main] *)

Lemma stage_event_false e :
  stage_event e = false → late_event e = false ∧ is_upload e = false.
Proof.
  destruct e as [s|p|i|t|i f m]; cbn; try (intros; split; congruence).
  destruct (String.eqb s msg_start), (String.eqb s msg_no_files),
    (String.eqb s msg_cancelled); cbn; intros; split; congruence.
Qed.

(** Either [main] stops before the upload stage, with an exception and
    without any event of that stage, or it runs [upload_folder] on the
    record it resolved, the identifier popped off. *)
Lemma main_cases env args stdin :
  (∃ x, res (main env args stdin) = Raise x
        ∧ Forall (λ e, stage_event e = false) (events (main env args stdin)))
  ∨ (∃ pre record id stdin',
        Forall (λ e, stage_event e = false) pre
        ∧ res (resolve_metadata args stdin) = Ok record
        ∧ record !! "identifier" = Some id
        ∧ main env args stdin =
          mkOut (Ok tt)
            (rest (upload_folder env id (delete "identifier" record)
                     (abspath env (folder args)) (yes args) stdin'))
            (pre ++ events (upload_folder env id (delete "identifier" record)
                              (abspath env (folder args)) (yes args) stdin'))).
Proof.
  rewrite main_eq. cbv zeta.
  destruct (isdir env _).
  2:{ left. eexists; split; [reflexivity|]. by repeat constructor. }
  pose proof (resolve_metadata_events args stdin) as Hev.
  destruct (resolve_metadata args stdin) as [[record|x] st evs];
    cbn [events res] in *.
  2:{ left. eexists; split; [reflexivity|]. constructor; [reflexivity|].
      apply Forall_forall. intros e He. by apply resolver_event_quiet, Hev. }
  destruct (record !! "identifier") as [id|] eqn:Hid.
  2:{ left. eexists; split; [reflexivity|]. constructor; [reflexivity|].
      apply Forall_forall. intros e He. by apply resolver_event_quiet, Hev. }
  right.
  exists (Print ("📁 Preparing to upload contents of: " +:+ abspath env (folder args))
          :: evs), record, id, st.
  split_and!.
  - constructor; [reflexivity|].
    apply Forall_forall. intros e He. by apply resolver_event_quiet, Hev.
  - reflexivity.
  - exact Hid.
  - pose proof (upload_folder_res env id (delete "identifier" record)
                  (abspath env (folder args)) (yes args) st) as Hres.
    destruct (upload_folder _ _ _ _ _ _) as [r st' evs'].
    cbn [res rest events] in *. by subst r.
Qed.

(** Splitting a trace at an event of the upload stage: the event lies in
    the part [upload_folder] produced. *)
Lemma split_after_quiet (P : event → bool) (l1 l2 pre : list event) e post :
  Forall (λ x, P x = false) l1 → P e = true →
  (l1 ++ l2 = pre ++ e :: post)%list →
  ∃ pre', pre = (l1 ++ pre')%list ∧ l2 = (pre' ++ e :: post)%list.
Proof.
  intros Hq He. revert pre. induction Hq as [|x l1 Hx Hq IH]; intros pre Heq.
  - exists pre. by split.
  - destruct pre as [|y pre]; cbn in Heq.
    + injection Heq as -> _. congruence.
    + injection Heq as -> Heq. destruct (IH _ Heq) as (pre' & -> & ->).
      by exists pre'.
Qed.

(** ** Concrete invocations *)

Ltac find_elem :=
  repeat first [ apply list_elem_of_here | apply list_elem_of_further ].

(** ** The record handed to the upload call *)

(** C6: whenever [main] reaches the upload call, the metadata it passes has
    no key [identifier]; that key was popped off the resolved record, and
    its value is the item the call goes to (the one [get_item] opened). *)
Theorem upload_metadata_has_no_identifier env args stdin item files metadata :
  Upload item files metadata ∈ events (main env args stdin) →
  metadata !! "identifier" = None
  ∧ ∃ record,
      res (resolve_metadata args stdin) = Ok record
      ∧ record !! "identifier" = Some item
      ∧ metadata = delete "identifier" record
      ∧ GetItem item ∈ events (main env args stdin).
Proof.
  intros Hin.
  destruct (main_cases env args stdin)
    as [(x & _ & Hq)|(pre & record & id & st & Hq & Hres & Hid & Hmain)].
  - rewrite Forall_forall in Hq. by specialize (Hq _ Hin).
  - rewrite Hmain in Hin |- *. cbn [events] in *.
    apply elem_of_app in Hin as [Hin|Hin].
    { rewrite Forall_forall in Hq. by specialize (Hq _ Hin). }
    apply upload_folder_upload in Hin as (-> & -> & _).
    split; [apply lookup_delete_eq|].
    exists record. split_and!; try done.
    apply elem_of_app. right.
    destruct (upload_folder_head env id (delete "identifier" record)
                (abspath env (folder args)) (yes args) st) as [tail ->].
    find_elem.
Qed.

Lemma upload_metadata_has_no_identifier_witness :
  Scenario.all_flags_record !! "identifier" = None
  ∧ ∃ record,
      res (resolve_metadata Scenario.all_flags []) = Ok record
      ∧ record !! "identifier" = Some (VStr "my-item")
      ∧ Scenario.all_flags_record = delete "identifier" record
      ∧ GetItem (VStr "my-item")
        ∈ events (main Scenario.online Scenario.all_flags []).
Proof.
  apply (upload_metadata_has_no_identifier Scenario.online Scenario.all_flags []
           (VStr "my-item") Scenario.data_files Scenario.all_flags_record).
  vm_compute. find_elem.
Defined.

(** ** An empty enumeration *)

Lemma no_files_never_uploads env args stdin :
  files_to_upload env (abspath env (folder args)) = [] →
  Forall (λ e, is_upload e = false) (events (main env args stdin)).
Proof.
  intros Hnil.
  destruct (main_cases env args stdin)
    as [(x & _ & Hq)|(pre & record & id & st & Hq & _ & _ & Hmain)].
  - eapply Forall_impl; [exact Hq|]. intros e He. by apply stage_event_false.
  - rewrite Hmain. cbn [events]. apply Forall_app. split.
    + eapply Forall_impl; [exact Hq|]. intros e He. by apply stage_event_false.
    + by apply upload_folder_no_files.
Qed.

(** C7: when the walk over the target folder finds no file to upload, no
    upload call is ever made; and once the walk has happened the last thing
    printed is the no-files message and the process ends with status 0. *)
Theorem no_files_is_a_quiet_success env args stdin :
  files_to_upload env (abspath env (folder args)) = [] →
  Rglob (abspath env (folder args)) ∈ events (main env args stdin) →
  Forall (λ e, is_upload e = false) (events (main env args stdin))
  ∧ last (events (main env args stdin)) = Some (Print msg_no_files)
  ∧ res (main env args stdin) = Ok tt
  ∧ exit_status (res (main env args stdin)) = 0.
Proof.
  intros Hnil Hin. split; [by apply no_files_never_uploads|].
  destruct (main_cases env args stdin)
    as [(x & _ & Hq)|(pre & record & id & st & Hq & _ & _ & Hmain)].
  { rewrite Forall_forall in Hq. by specialize (Hq _ Hin). }
  rewrite Hmain in Hin |- *. cbn [events res] in *.
  apply elem_of_app in Hin as [Hin|Hin].
  { rewrite Forall_forall in Hq. by specialize (Hq _ Hin). }
  apply upload_folder_rglob in Hin as [_ Hok].
  destruct (upload_folder_no_files env id (delete "identifier" record)
              (abspath env (folder args)) (yes args) st Hnil) as [_ Heq].
  rewrite (Heq Hok). cbn [events]. split_and!; try reflexivity.
  rewrite last_app. reflexivity.
Qed.

Lemma no_files_is_a_quiet_success_witness :
  Forall (λ e, is_upload e = false)
         (events (main Scenario.online Scenario.all_flags_empty_folder []))
  ∧ last (events (main Scenario.online Scenario.all_flags_empty_folder []))
    = Some (Print msg_no_files)
  ∧ res (main Scenario.online Scenario.all_flags_empty_folder []) = Ok tt
  ∧ exit_status (res (main Scenario.online Scenario.all_flags_empty_folder []))
    = 0.
Proof.
  apply (no_files_is_a_quiet_success
           Scenario.online Scenario.all_flags_empty_folder []).
  - vm_compute. reflexivity.
  - vm_compute. find_elem.
Defined.

(** ** Authentication failures *)

(** C8: when a client call made during the run fails with an
    authentication error, nothing propagates: [main] returns normally (exit
    status 0) and the last line printed tells the user to run
    [ia configure]. *)
Theorem authentication_failure_is_reported env args stdin :
  (∃ item, GetItem item ∈ events (main env args stdin)
           ∧ get_item_outcome env item = Some AuthFailure)
  ∨ (∃ item files metadata,
        Upload item files metadata ∈ events (main env args stdin)
        ∧ upload_outcome env item files metadata = Some AuthFailure) →
  res (main env args stdin) = Ok tt
  ∧ exit_status (res (main env args stdin)) = 0
  ∧ last (events (main env args stdin)) = Some (Print msg_configure).
Proof.
  intros Hfail.
  destruct (main_cases env args stdin)
    as [(x & _ & Hq)|(pre & record & id & st & Hq & _ & _ & Hmain)].
  { rewrite Forall_forall in Hq.
    destruct Hfail as [(i & Hin & _)|(i & f & m & Hin & _)];
      by specialize (Hq _ Hin). }
  rewrite Hmain in Hfail |- *. cbn [events res] in *.
  split_and!; try reflexivity.
  assert (last (events (upload_folder env id (delete "identifier" record)
                          (abspath env (folder args)) (yes args) st))
          = Some (Print msg_configure)) as Hlast.
  { apply upload_folder_auth.
    destruct Hfail as [(i & Hin & Ho)|(i & f & m & Hin & Ho)].
    - left. apply elem_of_app in Hin as [Hin|Hin].
      { rewrite Forall_forall in Hq. by specialize (Hq _ Hin). }
      by apply upload_folder_get_item in Hin as ->.
    - right. exists i, f, m. split; [|done].
      apply elem_of_app in Hin as [Hin|Hin]; [|done].
      rewrite Forall_forall in Hq. by specialize (Hq _ Hin). }
  destruct (events (upload_folder _ _ _ _ _ _)) as [|e evs] using rev_ind;
    [discriminate Hlast|].
  rewrite last_snoc in Hlast. rewrite app_assoc, last_snoc. done.
Qed.

Lemma authentication_failure_is_reported_witness :
  res (main Scenario.logged_out Scenario.all_flags []) = Ok tt
  ∧ exit_status (res (main Scenario.logged_out Scenario.all_flags [])) = 0
  ∧ last (events (main Scenario.logged_out Scenario.all_flags []))
    = Some (Print msg_configure).
Proof.
  apply (authentication_failure_is_reported
           Scenario.logged_out Scenario.all_flags []).
  right. exists (VStr "my-item"), Scenario.data_files, Scenario.all_flags_record.
  split; [vm_compute; find_elem | reflexivity].
Defined.

(** ** The order of the client calls *)

Lemma upload_stage_opens_item env args stdin :
  Print msg_start ∈ events (main env args stdin) →
  ∃ item, GetItem item ∈ events (main env args stdin).
Proof.
  intros Hin.
  destruct (main_cases env args stdin)
    as [(x & _ & Hq)|(pre & record & id & st & Hq & _ & _ & Hmain)].
  { rewrite Forall_forall in Hq. by specialize (Hq _ Hin). }
  rewrite Hmain. cbn [events]. exists id. apply elem_of_app. right.
  destruct (upload_folder_head env id (delete "identifier" record)
              (abspath env (folder args)) (yes args) st) as [tail ->].
  find_elem.
Qed.

(** C10: in the trace of any run, the walk over the folder, the
    confirmation prompt, the no-files message and the cancelled message
    each come after a [get_item] call: the item is opened first, also on
    the paths that then return without uploading. *)
Theorem get_item_comes_first env args stdin pre e post :
  events (main env args stdin) = (pre ++ e :: post)%list →
  late_event e = true →
  ∃ item, GetItem item ∈ pre.
Proof.
  intros Heq Hlate.
  destruct (main_cases env args stdin)
    as [(x & _ & Hq)|(pre0 & record & id & st & Hq & _ & _ & Hmain)].
  { rewrite Heq in Hq. apply Forall_app in Hq as [_ Hq].
    apply Forall_cons in Hq as [Hq _].
    apply stage_event_false in Hq as [Hq _]. congruence. }
  rewrite Hmain in Heq. cbn [events] in Heq.
  assert (Forall (λ x, late_event x = false) pre0) as Hq'.
  { eapply Forall_impl; [exact Hq|]. intros x Hx. by apply stage_event_false. }
  destruct (split_after_quiet late_event _ _ _ _ _ Hq' Hlate Heq)
    as (pre' & -> & Hup).
  exists id. apply elem_of_app. right.
  by eapply upload_folder_late.
Qed.

Lemma get_item_comes_first_witness :
  ∃ item,
    GetItem item
    ∈ [Print "📁 Preparing to upload contents of: /data";
       Print msg_start; Print "→ Target Identifier: my-item";
       GetItem (VStr "my-item"); Rglob "/data";
       Print "Found 2 file(s) to potentially upload."].
Proof.
  apply (get_item_comes_first Scenario.online Scenario.required_flags ["n"] _
           (Input confirm_prompt) [Print msg_cancelled]).
  - vm_compute. reflexivity.
  - reflexivity.
Defined.

(** ** Flags that make prompting unnecessary *)

Lemma all_required_spec args :
  all_required args = true ↔
  ∃ i t c m,
    identifier args = Some i ∧ title args = Some t ∧ creator args = Some c
    ∧ mediatype args = Some m ∧ i ≠ "" ∧ t ≠ "" ∧ c ≠ "" ∧ m ≠ "".
Proof.
  unfold all_required. rewrite !andb_true_iff. split.
  - intros [[[Hi Ht] Hc] Hm].
    destruct (identifier args) as [[|? ?]|], (title args) as [[|? ?]|],
      (creator args) as [[|? ?]|], (mediatype args) as [[|? ?]|];
      try discriminate.
    eexists _, _, _, _. split_and!; (reflexivity || discriminate).
  - intros (i & t & c & m & -> & -> & -> & -> & Hi & Ht & Hc & Hm).
    by destruct i, t, c, m.
Qed.

Lemma main_all_required env args stdin :
  all_required args = true →
  Forall (λ e, metadata_prompting e = false) (events (main env args stdin)).
Proof.
  intros Hall. rewrite main_eq, resolve_metadata_eq, Hall. cbv zeta.
  destruct (isdir env _); [|by repeat constructor].
  destruct (flags_metadata args !! "identifier") as [id|];
    [|by repeat constructor].
  pose proof (upload_folder_metadata_prompting env id
                (delete "identifier" (flags_metadata args))
                (abspath env (folder args)) (yes args) stdin) as Hup.
  destruct (upload_folder _ _ _ _ _ _) as [r st evs]. cbn [events] in *.
  by constructor.
Qed.

(** C3, as the code has it: with all four required flags given and
    non-empty, no run of [main] performs an event of [get_user_input] (no
    banner, no metadata prompt, no complaint), with or without [--yes]. *)
Theorem required_flags_skip_prompting env args stdin i t c m :
  identifier args = Some i → title args = Some t →
  creator args = Some c → mediatype args = Some m →
  i ≠ "" → t ≠ "" → c ≠ "" → m ≠ "" →
  Forall (λ e, metadata_prompting e = false) (events (main env args stdin)).
Proof.
  intros Hi Ht Hc Hm Hi' Ht' Hc' Hm'. apply main_all_required.
  apply all_required_spec. by exists i, t, c, m.
Qed.

Lemma required_flags_skip_prompting_witness :
  Forall (λ e, metadata_prompting e = false)
         (events (main Scenario.online Scenario.required_flags ["y"])).
Proof.
  apply (required_flags_skip_prompting Scenario.online Scenario.required_flags
           ["y"] "my-item" "T" "C" "texts");
    (reflexivity || discriminate).
Defined.

(** ** Flags given as the empty string *)

(** C3, as the claim states it, fails: all four required flags are present,
    [-i] with an empty value, and [get_user_input] runs. *)
Lemma empty_required_flag_still_prompts :
  is_Some (identifier Slip.empty_identifier)
  ∧ is_Some (title Slip.empty_identifier)
  ∧ is_Some (creator Slip.empty_identifier)
  ∧ is_Some (mediatype Slip.empty_identifier)
  ∧ events (main Scenario.online Slip.empty_identifier [""; ""; ""])
    = [Print "📁 Preparing to upload contents of: /data";
       Print msg_banner;
       Input "Enter a description (optional): ";
       Input "Enter subjects/tags, comma-separated (optional): ";
       Input "Enter year (optional): "]
  ∧ metadata_prompting (Print msg_banner) = true.
Proof. split_and!; try (by eexists); vm_compute; reflexivity. Qed.

(** ** Exit status *)





(** The two errors [main] checks for itself. *)
Lemma missing_folder_exits_1 env args stdin :
  isdir env (abspath env (folder args)) = false →
  main env args stdin =
  mkOut (Raise (SystemExit 1)) stdin
    [Print ("❌ Error: Folder not found at '" +:+ abspath env (folder args) +:+ "'")].
Proof. intros H. rewrite main_eq. cbv zeta. by rewrite H. Qed.

Lemma yes_without_required_flags_exits_1 env args stdin :
  isdir env (abspath env (folder args)) = true →
  yes args = true → all_required args = false →
  res (main env args stdin) = Raise (SystemExit 1)
  ∧ exit_status (res (main env args stdin)) = 1
  ∧ Print msg_flags ∈ events (main env args stdin)
  ∧ Forall (λ e, stage_event e = false) (events (main env args stdin)).
Proof.
  intros Hdir Hyes Hall.
  rewrite main_eq, resolve_metadata_eq. cbv zeta. rewrite Hdir, Hyes, Hall.
  cbn [res events exit_status].
  split_and!; try reflexivity; [find_elem | by repeat constructor].
Qed.

(** C4: the folder exists and [--yes] is not given, yet the process ends
    with status 1: [-i ""] is neither accepted as an identifier nor asked
    for again, and popping the identifier raises [KeyError]. *)
Theorem empty_identifier_exits_1 :
  isdir Scenario.online (abspath Scenario.online (folder Slip.empty_identifier))
  = true
  ∧ yes Slip.empty_identifier = false
  ∧ res (main Scenario.online Slip.empty_identifier [""; ""; ""; "y"])
    = Raise (KeyError "identifier")
  ∧ exit_status (res (main Scenario.online Slip.empty_identifier [""; ""; ""; "y"]))
    = 1.
Proof. split_and!; vm_compute; reflexivity. Qed.

(** ** What the prompting path does with the flags *)

(** The loop that merges the flags into the prompted record looks the
    attributes up under the record's key names, so it reads [args.subject]
    and [args.date], which do not exist, and its renaming branch is never
    taken: only the five flags whose name is also the key are merged. *)
Lemma combine_cli_eq args metadata :
  combine_cli args metadata =
  set_if "description" (of_arg (description args))
    (set_if "mediatype" (of_arg (mediatype args))
       (set_if "creator" (of_arg (creator args))
          (set_if "title" (of_arg (title args))
             (set_if "identifier" (of_arg (identifier args)) metadata)))).
Proof. reflexivity. Qed.

Lemma set_if_lookup_ne key k v (metadata : gmap string value) :
  key ≠ k → set_if key v metadata !! k = metadata !! k.
Proof. intros Hne. unfold set_if. destruct (truthy v); by simplify_map_eq. Qed.

Lemma set_if_lookup key v (metadata : gmap string value) :
  set_if key v metadata !! key =
  if truthy v then Some v else metadata !! key.
Proof. unfold set_if. destruct (truthy v); by simplify_map_eq. Qed.

Lemma combine_cli_drops_subjects_and_year args :
  combine_cli args ∅ !! "subject" = None ∧ combine_cli args ∅ !! "date" = None.
Proof.
  rewrite combine_cli_eq. by rewrite !set_if_lookup_ne.
Qed.

(** The prompts [main] selects: one for each of the five like-named flags
    that is [None], and always those for [subject] and [date]. *)
Lemma missing_prompts_eq args :
  missing_prompts args =
  ((if identifier args is None
    then [("identifier", "Enter a unique identifier", true)] else [])
   ++ (if title args is None then [("title", "Enter a title", true)] else [])
   ++ (if creator args is None
       then [("creator", "Enter the creator/author", true)] else [])
   ++ (if mediatype args is None
       then [("mediatype", "Enter media type (e.g., texts, movies, data)", true)]
       else [])
   ++ (if description args is None
       then [("description", "Enter a description (optional)", false)] else [])
   ++ [("subject", "Enter subjects/tags, comma-separated (optional)", false);
       ("date", "Enter year (optional)", false)])%list.
Proof.
  unfold missing_prompts, metadata_prompts.
  destruct args as [f i t c m d s y ye]. cbn [identifier title creator mediatype description].
  destruct i, t, c, m, d; reflexivity.
Qed.

(** ** One prompt *)

Lemma nonempty_false s : Str.nonempty s = false ↔ s = "".
Proof. destruct s; split; (done || discriminate). Qed.

Lemma nonempty_true s : Str.nonempty s = true ↔ s ≠ "".
Proof. destruct s; split; (done || discriminate). Qed.


(** With nothing but blank answers left, a required prompt ends in
    [EOFError]: it never gives up on its own. *)
Lemma prompt_loop_required_eof key prompt metadata blanks :
  Forall blank blanks →
  res (prompt_loop key prompt true metadata blanks) = Raise EOFError.
Proof.
  induction 1 as [|b blanks Hb _ IH]; cbn [prompt_loop]; [done|].
  apply nonempty_false in Hb. rewrite Hb. cbn [orb negb].
  by destruct (prompt_loop _ _ _ _ blanks).
Qed.

(** An optional prompt is asked once; a blank answer leaves the record as
    it is. *)
Lemma prompt_loop_optional key prompt metadata line stdin :
  prompt_loop key prompt false metadata (line :: stdin) =
  mkOut (Ok (if Str.nonempty (Str.strip line)
             then <[key := VStr (Str.strip line)]> metadata else metadata))
        stdin [Input (prompt +:+ ": ")].
Proof. cbn [prompt_loop]. by rewrite orb_true_r. Qed.

Lemma prompt_loop_optional_blank key prompt metadata line stdin :
  blank line →
  prompt_loop key prompt false metadata (line :: stdin) =
  mkOut (Ok metadata) stdin [Input (prompt +:+ ": ")].
Proof.
  intros Hb%nonempty_false. by rewrite prompt_loop_optional, Hb.
Qed.

(** Whatever a prompt returns is the record it got, with at most its own
    key set, to a non-empty string; a required prompt always sets it. *)
Lemma prompt_loop_result key prompt required metadata stdin metadata' :
  res (prompt_loop key prompt required metadata stdin) = Ok metadata' →
  (∃ v, v ≠ "" ∧ metadata' = <[key := VStr v]> metadata)
  ∨ (required = false ∧ metadata' = metadata).
Proof.
  induction stdin as [|line stdin IH]; cbn [prompt_loop]; [discriminate|].
  destruct (Str.nonempty (Str.strip line)) eqn:Hv; cbn [orb].
  - intros [= <-]. left. eexists; split; [|done]. by apply nonempty_true.
  - destruct required; cbn [negb].
    + by destruct (prompt_loop _ _ _ _ stdin).
    + intros [= <-]. by right.
Qed.

(** [get_user_input] returns only when every required key it was given
    holds a non-empty string. *)
Lemma prompt_all_required keys metadata stdin metadata' key prompt :
  res (prompt_all keys metadata stdin) = Ok metadata' →
  (key, prompt, true) ∈ keys →
  ∃ v, v ≠ "" ∧ metadata' !! key = Some (VStr v).
Proof.
  assert (∀ keys metadata stdin metadata' v,
            res (prompt_all keys metadata stdin) = Ok metadata' →
            v ≠ "" → metadata !! key = Some (VStr v) →
            ∃ v', v' ≠ "" ∧ metadata' !! key = Some (VStr v')) as Hkeep.
  { clear. induction keys as [|[[k p] r] keys IH]; intros md stdin md' v.
    - intros [= <-]. eauto.
    - cbn [prompt_all]. run_py.
      pose proof (prompt_loop_result k p r md stdin) as H1.
      destruct (prompt_loop k p r md stdin) as [[md1|x] st evs];
        cbn [res] in *; [|discriminate].
      intros Hres Hv Hmd.
      assert (res (prompt_all keys md1 st) = Ok md') as Hres'
          by by destruct (prompt_all keys md1 st).
      destruct (H1 _ eq_refl) as [(w & Hw & ->)|[_ ->]]; [|by eapply IH].
      destruct (decide (k = key)) as [->|Hne].
      + eapply (IH _ _ _ w); [done..|]. by simplify_map_eq.
      + eapply (IH _ _ _ v); [done..|]. by simplify_map_eq. }
  revert metadata stdin.
  induction keys as [|[[k p] r] keys IH]; intros md stdin Hres Hin.
  - by apply elem_of_nil in Hin.
  - cbn [prompt_all] in Hres. revert Hres. run_py.
    pose proof (prompt_loop_result k p r md stdin) as H1.
    destruct (prompt_loop k p r md stdin) as [[md1|x] st evs];
      cbn [res] in *; [|discriminate].
    intros Hres.
    assert (res (prompt_all keys md1 st) = Ok metadata') as Hres'
        by by destruct (prompt_all keys md1 st).
    apply elem_of_cons in Hin as [[= <- <- <-]|Hin]; [|by eapply IH].
    destruct (H1 _ eq_refl) as [(w & Hw & ->)|[? _]]; [|done].
    eapply (Hkeep _ _ _ _ w); [done..|]. by simplify_map_eq.
Qed.

(** ** The renaming of [--subjects] and [--year] *)

(** On the all-flags path the two flags are stored under [subject] and
    [date], and nothing is asked or printed. *)
Lemma flags_path_renames args stdin s y :
  all_required args = true →
  subjects args = Some s → year args = Some y → s ≠ "" → y ≠ "" →
  resolve_metadata args stdin = mkOut (Ok (flags_metadata args)) stdin []
  ∧ flags_metadata args !! "subject" = Some (VStr s)
  ∧ flags_metadata args !! "date" = Some (VStr y).
Proof.
  intros Hall Hs Hy Hs' Hy'. rewrite resolve_metadata_eq, Hall.
  split; [done|]. unfold flags_metadata. rewrite Hs, Hy.
  apply nonempty_true in Hs', Hy'.
  rewrite set_if_lookup, set_if_lookup_ne, set_if_lookup by done.
  cbn [of_arg truthy]. by rewrite Hs', Hy'.
Qed.

(** On the prompting path the record takes [subject] and [date] from the
    answers alone, whatever [--subjects] and [--year] were. *)
Lemma prompting_path_ignores_subjects_and_year args stdin record :
  all_required args = false →
  res (resolve_metadata args stdin) = Ok record →
  ∃ user_metadata,
    res (prompt_all (missing_prompts args) ∅ stdin) = Ok user_metadata
    ∧ record !! "subject" = user_metadata !! "subject"
    ∧ record !! "date" = user_metadata !! "date".
Proof.
  intros Hall. rewrite resolve_metadata_eq, Hall.
  destruct (yes args); [discriminate|].
  destruct (prompt_all _ _ _) as [[um|x] st evs]; [|discriminate].
  intros [= <-]. exists um. split; [done|].
  destruct (combine_cli_drops_subjects_and_year args) as [Hs Hd].
  by rewrite !lookup_union_l.
Qed.

(** C1: with [--subjects a,b --year 1999] and the required fields left to
    the prompts, the subject and year prompts are asked all the same and,
    answered with an empty line, leave the record without [subject] and
    without [date]: the two flag values are lost. *)
Theorem subjects_and_year_flags_are_dropped :
  subjects Slip.subjects_and_year = Some "a,b"
  ∧ year Slip.subjects_and_year = Some "1999"
  ∧ resolve_metadata Slip.subjects_and_year Slip.answers
    = mkOut (Ok Slip.answers_record) ["y"]
        [Print msg_banner;
         Input "Enter a unique identifier: ";
         Input "Enter a title: ";
         Input "Enter the creator/author: ";
         Input "Enter media type (e.g., texts, movies, data): ";
         Input "Enter a description (optional): ";
         Input "Enter subjects/tags, comma-separated (optional): ";
         Input "Enter year (optional): "]
  ∧ Slip.answers_record !! "subject" = None
  ∧ Slip.answers_record !! "date" = None.
Proof. split_and!; vm_compute; reflexivity. Qed.

(** ** Which fields are asked for *)

(** C2: [--subjects a,b] is given, and the subject prompt is among the
    prompts selected and among those asked. *)
Theorem supplied_subjects_are_asked_again :
  subjects Slip.subjects_and_year = Some "a,b"
  ∧ ("subject", "Enter subjects/tags, comma-separated (optional)", false)
    ∈ missing_prompts Slip.subjects_and_year
  ∧ Input "Enter subjects/tags, comma-separated (optional): "
    ∈ events (main Scenario.online Slip.subjects_and_year Slip.answers).
Proof.
  split_and!; [reflexivity | vm_compute; find_elem | vm_compute; find_elem].
Qed.

(** The prompts for [subject] and [date] are selected on every invocation. *)
Lemma subject_and_date_always_prompted args :
  ("subject", "Enter subjects/tags, comma-separated (optional)", false)
  ∈ missing_prompts args
  ∧ ("date", "Enter year (optional)", false) ∈ missing_prompts args.
Proof.
  rewrite missing_prompts_eq.
  split; repeat (apply elem_of_app; right); find_elem.
Qed.

(** ** Required flags given as the empty string *)

Lemma empty_required_flag args :
  identifier args = Some "" ∨ title args = Some ""
  ∨ creator args = Some "" ∨ mediatype args = Some "" →
  all_required args = false.
Proof.
  unfold all_required.
  intros [-> | [-> | [-> | ->]]]; cbn [of_arg truthy Str.nonempty];
    rewrite ?andb_false_r; reflexivity.
Qed.

(** With [--yes], an empty required flag ends the run like an absent one. *)
Lemma empty_required_flag_with_yes env args stdin :
  isdir env (abspath env (folder args)) = true → yes args = true →
  identifier args = Some "" ∨ title args = Some ""
  ∨ creator args = Some "" ∨ mediatype args = Some "" →
  exit_status (res (main env args stdin)) = 1.
Proof.
  intros Hdir Hyes Hempty.
  by apply yes_without_required_flags_exits_1, empty_required_flag.
Qed.

(** An optional flag given as the empty string is left out of the record
    built from the flags. *)
Lemma empty_optional_flag_omitted args :
  (description args = Some "" → flags_metadata args !! "description" = None)
  ∧ (subjects args = Some "" → flags_metadata args !! "subject" = None)
  ∧ (year args = Some "" → flags_metadata args !! "date" = None).
Proof.
  unfold flags_metadata. split_and!; intros ->.
  - by rewrite 2!set_if_lookup_ne, set_if_lookup.
  - by rewrite set_if_lookup_ne, set_if_lookup, set_if_lookup_ne.
  - by rewrite set_if_lookup, 2!set_if_lookup_ne.
Qed.

(** C9: without [--yes], leaving [-i] out gets the identifier asked for and
    the run completes, while [-i ""] gets every prompt but that one, so the
    record has no identifier and [main] dies with [KeyError]. *)
Theorem empty_identifier_is_not_asked_for :
  missing_prompts Slip.absent_identifier
  = [("identifier", "Enter a unique identifier", true);
     ("description", "Enter a description (optional)", false);
     ("subject", "Enter subjects/tags, comma-separated (optional)", false);
     ("date", "Enter year (optional)", false)]
  ∧ res (main Scenario.online Slip.absent_identifier ["my-item"; ""; ""; ""; "y"])
    = Ok tt
  ∧ missing_prompts Slip.empty_identifier
    = [("description", "Enter a description (optional)", false);
       ("subject", "Enter subjects/tags, comma-separated (optional)", false);
       ("date", "Enter year (optional)", false)]
  ∧ main Scenario.online Slip.empty_identifier [""; ""; ""; "y"]
    = mkOut (Raise (KeyError "identifier")) ["y"]
        [Print "📁 Preparing to upload contents of: /data";
         Print msg_banner;
         Input "Enter a description (optional): ";
         Input "Enter subjects/tags, comma-separated (optional): ";
         Input "Enter year (optional): "].
Proof. split_and!; vm_compute; reflexivity. Qed.

(** ** Paths and their text *)

Lemma append_cons c x s : String c x +:+ s = String c (x +:+ s).
Proof. reflexivity. Qed.

Lemma append_empty s : "" +:+ s = s.
Proof. reflexivity. Qed.

Lemma split_no_slash x : Str.has_slash x = false → Str.split x = [x].
Proof.
  induction x as [|c x IH]; cbn [Str.has_slash Str.split]; [done|].
  intros [Hc Hx]%orb_false_iff. by rewrite Hc, (IH Hx).
Qed.

Lemma split_app_slash x s :
  Str.has_slash x = false → Str.split (x +:+ "/" +:+ s) = x :: Str.split s.
Proof.
  induction x as [|c x IH]; intros Hx; [done|].
  cbn [Str.has_slash] in Hx. apply orb_false_iff in Hx as [Hc Hx].
  rewrite append_cons. cbn [Str.split]. by rewrite Hc, (IH Hx).
Qed.

Lemma valid_name_spec x :
  valid_name x = true →
  Str.has_slash x = false ∧ Pathlib.keep_part x = true ∧ x ≠ "".
Proof.
  unfold valid_name. intros [Hk Hs%negb_true_iff]%andb_true_iff.
  split_and!; [done..|]. by intros ->.
Qed.

(** Splitting the joined components gives them back. *)
Lemma split_join l :
  Forall (λ x, valid_name x = true) l → l ≠ [] → Str.split (Str.join l) = l.
Proof.
  induction 1 as [|x l Hx Hl IH]; [done|]. intros _.
  apply valid_name_spec in Hx as (Hx & _ & _).
  destruct l as [|y l]; cbn [Str.join].
  - by apply split_no_slash.
  - rewrite split_app_slash by done. f_equal. by apply IH.
Qed.

Lemma filter_keep_valid l :
  Forall (λ x, valid_name x = true) l →
  filter (λ x, Is_true (Pathlib.keep_part x)) l = l.
Proof.
  induction 1 as [|x l Hx Hl IH]; [done|].
  apply valid_name_spec in Hx as (_ & Hx & _).
  rewrite filter_cons_True by by rewrite Hx. by rewrite IH.
Qed.

Lemma names_of_join l :
  Forall (λ x, valid_name x = true) l →
  filter (λ x, Is_true (Pathlib.keep_part x)) (Str.split (Str.join l)) = l.
Proof.
  intros Hl. destruct l as [|x l]; [done|].
  rewrite split_join by done. by apply filter_keep_valid.
Qed.

(** The joined components do not start with a slash. *)
Lemma lstrip_slash_join l :
  Forall (λ x, valid_name x = true) l →
  Str.lstrip_slash (Str.join l) = (0, Str.join l).
Proof.
  intros Hl. destruct Hl as [|x l Hx Hl]; [done|].
  apply valid_name_spec in Hx as (Hs & _ & Hne).
  destruct x as [|c x]; [done|]. cbn [Str.has_slash] in Hs.
  apply orb_false_iff in Hs as [Hc _].
  destruct l; cbn [Str.join]; rewrite ?append_cons;
    cbn [Str.lstrip_slash]; by rewrite Hc.
Qed.

Lemma forallb_valid l :
  forallb valid_name l = true ↔ Forall (λ x, valid_name x = true) l.
Proof.
  rewrite forallb_forall, Forall_forall.
  split; intros H x Hx; apply H; by apply list_elem_of_In.
Qed.

(** Parsing the text of a well-formed path gives the path back. *)
Lemma Path_str p : wf_path p = true → Pathlib.Path (Pathlib.str p) = p.
Proof.
  destruct p as [a l]. unfold wf_path. cbn [Pathlib.anchor Pathlib.names].
  intros [Ha Hl%forallb_valid]%andb_true_iff.
  unfold Pathlib.Path, Pathlib.str. cbn [Pathlib.anchor Pathlib.names].
  apply orb_true_iff in Ha as [->%String.eqb_eq| ->%String.eqb_eq];
    rewrite ?append_cons, append_empty; cbn [Str.lstrip_slash];
    change (Str.is_slash "/") with true; cbv iota;
    rewrite (lstrip_slash_join l Hl); by rewrite names_of_join.
Qed.

Lemma wf_path_joinpath p rel :
  wf_path p = true → Forall (λ x, valid_name x = true) rel →
  wf_path (Pathlib.joinpath p rel) = true.
Proof.
  unfold wf_path. cbn [Pathlib.joinpath Pathlib.anchor Pathlib.names].
  intros [-> Hl%forallb_valid]%andb_true_iff Hrel. cbn [andb].
  apply forallb_valid, Forall_app. by split.
Qed.

Lemma strip_prefix_app pre rel :
  Pathlib.strip_prefix pre (pre ++ rel) = Some rel.
Proof.
  induction pre as [|x pre IH]; [by destruct rel|].
  cbn [app Pathlib.strip_prefix]. by rewrite String.eqb_refl.
Qed.

(** [relative_to] undoes [joinpath]. *)
Lemma relative_to_joinpath p rel :
  Pathlib.relative_to (Pathlib.joinpath p rel) p
  = Some (Pathlib.mkPath "" rel).
Proof.
  unfold Pathlib.relative_to, Pathlib.joinpath.
  cbn [Pathlib.anchor Pathlib.names].
  by rewrite String.eqb_refl, strip_prefix_app.
Qed.

Lemma name_joinpath p rel :
  rel ≠ [] → Pathlib.name (Pathlib.joinpath p rel) = List.last rel "".
Proof.
  intros Hrel. unfold Pathlib.name, Pathlib.joinpath. cbn [Pathlib.names].
  induction (Pathlib.names p) as [|x l IH]; [done|].
  cbn [app]. destruct (l ++ rel)%list eqn:E; [|done].
  by apply app_eq_nil in E as [_ ?].
Qed.

Lemma join_nonempty l :
  Forall (λ x, valid_name x = true) l → l ≠ [] → Str.join l ≠ "".
Proof.
  intros Hl Hne. destruct Hl as [|x l Hx Hl]; [done|].
  apply valid_name_spec in Hx as (_ & _ & Hx).
  destruct x; [done|]. by destruct l.
Qed.

Lemma str_relative rel :
  Forall (λ x, valid_name x = true) rel → rel ≠ [] →
  Pathlib.str (Pathlib.mkPath "" rel) = Str.join rel.
Proof. intros Hl Hne. unfold Pathlib.str. cbn. by destruct rel. Qed.

(** ** Directory trees *)

Lemma node_ind (P : node → Prop) :
  P File → P Special →
  (∀ entries, Forall (λ xc, P xc.2) entries → P (Dir entries)) →
  ∀ n, P n.
Proof.
  intros HF HS HD. fix IH 1. intros [| |entries]; [exact HF|exact HS|].
  apply HD. induction entries as [|[x c] es IHes]; constructor.
  - apply IH.
  - exact IHes.
Qed.

Lemma descendants_wf n :
  wf_node n = true → Forall (λ rk, wf_rel rk.1) (descendants n).
Proof.
  induction n as [| |entries IH] using node_ind; [constructor..|].
  cbn [wf_node descendants].
  induction IH as [|[x c] es Hc _ IHes]; [constructor|].
  intros [[Hx Hwc]%andb_true_iff Hes]%andb_true_iff.
  constructor; [by split; [|repeat constructor]|].
  apply Forall_app. split; [|by apply IHes].
  apply Forall_fmap. eapply Forall_impl; [by apply Hc|].
  intros [rel k] [Hne Hrel]. cbn in *. split; [done|by constructor].
Qed.

(** ** The enumeration and the dictionary *)

Lemma kept_files_spec script dir rel :
  rel ∈ kept_files script dir ↔
  (rel, File) ∈ descendants dir ∧ List.last rel "" ≠ script.
Proof.
  unfold kept_files. rewrite list_elem_of_fmap. split.
  - intros ([rel' k] & -> & [Hp Hin]%list_elem_of_filter). cbn in *.
    apply Is_true_true, andb_true_iff in Hp as [Hf Hn].
    destruct k; try discriminate Hf. split; [done|].
    apply negb_true_iff, String.eqb_neq in Hn. done.
  - intros [Hin Hn]. exists (rel, File). split; [done|].
    apply list_elem_of_filter. split; [|done]. cbn.
    apply Is_true_true. by apply negb_true_iff, String.eqb_neq.
Qed.

Lemma filter_rglob base script (l : list (list string * node)) :
  Forall (λ rk, wf_rel rk.1) l →
  (filter (λ pk : Pathlib.PurePath * node,
             Is_true (is_file pk.2
                      && negb (String.eqb (Pathlib.name pk.1) script)))
          ((λ rk, (Pathlib.joinpath base rk.1, rk.2)) <$> l))
  = (λ rk, (Pathlib.joinpath base rk.1, rk.2))
    <$> filter (λ rk, Is_true (is_file rk.2
                               && negb (String.eqb (List.last rk.1 "") script)))
               l.
Proof.
  induction 1 as [|[rel k] l [Hne _] _ IH]; [done|].
  cbn [fmap list_fmap]. rewrite !filter_cons. cbn [fst snd].
  rewrite (name_joinpath base rel Hne). rewrite IH.
  by destruct (decide _).
Qed.

Lemma files_to_upload_eq env target base dir :
  Pathlib.Path target = base →
  lookup_node (Pathlib.names base) (fs env) = Some dir →
  wf_node dir = true →
  files_to_upload env target =
  (λ rel, Pathlib.str (Pathlib.joinpath base rel))
  <$> kept_files (script_name env) dir.
Proof.
  intros Hbase Hdir Hwf. unfold files_to_upload, rglob, kept_files, script_name.
  rewrite Hbase, Hdir.
  change (map ?f ?l) with (f <$> l).
  rewrite (filter_rglob base _ _ (descendants_wf dir Hwf)).
  rewrite <- !list_fmap_compose. done.
Qed.

Lemma build_dict_eq base rels d stdin :
  wf_path base = true → Forall wf_rel rels →
  build_dict base ((λ rel, Pathlib.str (Pathlib.joinpath base rel)) <$> rels)
    d stdin
  = mkOut (Ok (foldl (insert_file base) d rels)) stdin [].
Proof.
  intros Hbase Hrels. revert d.
  induction Hrels as [|rel rels [Hne Hrel] _ IH]; intros d; [done|].
  cbn [fmap list_fmap build_dict foldl].
  rewrite Path_str by by apply wf_path_joinpath.
  rewrite relative_to_joinpath, str_relative by done.
  apply IH.
Qed.

Lemma foldl_insert_file_dom base rels d :
  dom (foldl (insert_file base) d rels)
  = dom d ∪ list_to_set (Str.join <$> rels).
Proof.
  revert d. induction rels as [|rel rels IH]; intros d; cbn [foldl].
  - set_solver.
  - rewrite IH. unfold insert_file. rewrite dom_insert_L. set_solver.
Qed.

Lemma foldl_insert_file_lookup base rels d k v :
  foldl (insert_file base) d rels !! k = Some v →
  d !! k = Some v
  ∨ ∃ rel, rel ∈ rels ∧ k = Str.join rel
           ∧ v = Pathlib.str (Pathlib.joinpath base rel).
Proof.
  revert d. induction rels as [|rel rels IH]; intros d; cbn [foldl].
  - by left.
  - intros [Hd|(rel' & Hin & -> & ->)]%IH.
    + unfold insert_file in Hd. apply lookup_insert_Some in Hd as [[<- <-]|[_ Hd]].
      * right. exists rel. split; [apply list_elem_of_here|done].
      * by left.
    + right. exists rel'. split; [by apply list_elem_of_further|done].
Qed.

(** ** The keys of the mapping *)

(** C5, as the claim states it, fails: a regular file below the target that
    is not the tool's own entry file, but has its name, is a key by the
    specification's wording and is not a key of the mapping. *)
Lemma namesake_file_is_left_out :
  file_mapping Namesake.env "/data" = Ok Namesake.mapping
  ∧ Namesake.mapping !! "sub/archivist.py" = None
  ∧ dom Namesake.mapping = {["a.txt"]}
  ∧ spec_keys Namesake.env "/data" = {["a.txt"; "sub/archivist.py"]}.
Proof. split_and!; vm_compute; reflexivity. Qed.

(** C5, as the code has it: for a target folder whose path and whose tree
    consist of valid file names, the mapping is built without error; its
    keys are the slash-joined relative paths of the regular files below the
    target whose file name differs from the script's file name; and every
    key is bound to the text of the absolute path of such a file, which
    taken relative to the target folder gives the key back. *)
Theorem file_mapping_keys env target_folder base dir :
  target_folder = Pathlib.str base → wf_path base = true →
  lookup_node (Pathlib.names base) (fs env) = Some dir →
  wf_node dir = true →
  ∃ mapping,
    file_mapping env target_folder = Ok mapping
    ∧ dom mapping
      = list_to_set (Str.join <$> kept_files (script_name env) dir)
    ∧ ∀ remote_path local_path,
        mapping !! remote_path = Some local_path →
        ∃ rel,
          (rel, File) ∈ descendants dir
          ∧ List.last rel "" ≠ script_name env
          ∧ local_path = Pathlib.str (Pathlib.joinpath base rel)
          ∧ Pathlib.str
            <$> Pathlib.relative_to (Pathlib.Path local_path)
                  (Pathlib.Path target_folder)
            = Some remote_path.
Proof.
  intros -> Hbase Hdir Hwf.
  assert (Forall wf_rel (kept_files (script_name env) dir)) as Hrels.
  { unfold kept_files. apply Forall_fmap.
    apply Forall_filter_keep, descendants_wf, Hwf. }
  unfold file_mapping.
  rewrite (files_to_upload_eq env _ base dir (Path_str base Hbase) Hdir Hwf).
  rewrite (Path_str base Hbase), build_dict_eq by done. cbn [res].
  eexists. split; [reflexivity|]. split.
  - rewrite foldl_insert_file_dom, dom_empty_L. by rewrite (left_id_L ∅ (∪)).
  - intros k v [Hk|(rel & Hin & -> & ->)]%foldl_insert_file_lookup;
      [by rewrite lookup_empty in Hk|].
    exists rel. rewrite Forall_forall in Hrels.
    destruct (Hrels _ Hin) as [Hne Hrel].
    apply kept_files_spec in Hin as [Hin Hn]. split_and!; [done..|].
    rewrite Path_str by by apply wf_path_joinpath.
    rewrite relative_to_joinpath. cbn. f_equal. by apply str_relative.
Qed.

Lemma file_mapping_keys_witness :
  ∃ mapping,
    file_mapping Scenario.online "/data" = Ok mapping
    ∧ dom mapping
      = list_to_set
          (Str.join
           <$> kept_files (script_name Scenario.online)
                 (Dir [("a.txt", File); ("sub", Dir [("b.txt", File)])]))
    ∧ ∀ remote_path local_path,
        mapping !! remote_path = Some local_path →
        ∃ rel,
          (rel, File)
          ∈ descendants (Dir [("a.txt", File); ("sub", Dir [("b.txt", File)])])
          ∧ List.last rel "" ≠ script_name Scenario.online
          ∧ local_path
            = Pathlib.str (Pathlib.joinpath (Pathlib.mkPath "/" ["data"]) rel)
          ∧ Pathlib.str
            <$> Pathlib.relative_to (Pathlib.Path local_path)
                  (Pathlib.Path "/data")
            = Some remote_path.
Proof.
  apply (file_mapping_keys Scenario.online "/data" (Pathlib.mkPath "/" ["data"])
           (Dir [("a.txt", File); ("sub", Dir [("b.txt", File)])]));
    reflexivity.
Defined.

Lemma build_dict_stdin base files d stdin stdin' :
  res (build_dict base files d stdin) = res (build_dict base files d stdin').
Proof.
  revert d. induction files as [|f files IH]; intros d; cbn [build_dict].
  - done.
  - destruct (Pathlib.relative_to _ _); [apply IH|done].
Qed.

(** The dictionary of the upload call is this mapping. *)
Lemma upload_passes_file_mapping env args stdin item files metadata :
  Upload item files metadata ∈ events (main env args stdin) →
  file_mapping env (abspath env (folder args)) = Ok files.
Proof.
  intros Hin.
  destruct (main_cases env args stdin)
    as [(x & _ & Hq)|(pre & record & id & st & Hq & _ & _ & Hmain)].
  { rewrite Forall_forall in Hq. by specialize (Hq _ Hin). }
  rewrite Hmain in Hin. cbn [events] in Hin.
  apply elem_of_app in Hin as [Hin|Hin].
  { rewrite Forall_forall in Hq. by specialize (Hq _ Hin). }
  apply upload_folder_upload in Hin as (_ & _ & st' & Hb).
  unfold file_mapping. by rewrite (build_dict_stdin _ _ _ [] st'), Hb.
Qed.

(** * Further properties of the code *)

(** ** The upload stage, case by case *)

Ltac split_off_suffix :=
  match goal with
  | |- ∃ pre, ?l = (pre ++ ?s)%list =>
      exists (take (length l - length s) l); reflexivity
  end.

Lemma filter_quiet (P : event → bool) (l : list event) :
  Forall (λ e, P e = false) l → List.filter P l = [].
Proof.
  induction 1 as [|e l He _ IH]; [done|]. cbn [List.filter]. by rewrite He.
Qed.

Lemma upload_folder_yes env identifier metadata target stdin :
  rest (upload_folder env identifier metadata target true stdin) = stdin
  ∧ Forall (λ e, is_input e = false)
           (events (upload_folder env identifier metadata target true stdin)).
Proof. upload_cases; split; (reflexivity || by repeat constructor). Qed.

Lemma upload_folder_success env identifier metadata target ni stdin i f m :
  Upload i f m ∈ events (upload_folder env identifier metadata target ni stdin) →
  upload_outcome env i f m = None →
  ∃ pre,
    events (upload_folder env identifier metadata target ni stdin)
    = (pre ++ [Upload i f m; Print msg_complete; Print (msg_view identifier)])%list.
Proof.
  upload_cases; intros Hin Hnone; elem_cases Hin;
    injection Hin as -> -> ->; try congruence; split_off_suffix.
Qed.

Lemma upload_folder_other_failure env identifier metadata target ni stdin text :
  get_item_outcome env identifier = Some (OtherFailure text)
  ∨ (∃ i f m,
        Upload i f m ∈ events (upload_folder env identifier metadata target ni stdin)
        ∧ upload_outcome env i f m = Some (OtherFailure text)) →
  last (events (upload_folder env identifier metadata target ni stdin))
  = Some (Print (msg_unexpected text)).
Proof.
  upload_cases; intros [Hin|(i & f & m & Hin & Ho)]; try discriminate Hin;
    try (injection Hin as ->; reflexivity);
    elem_cases Hin; injection Hin as -> -> ->;
    match goal with
    | H : upload_outcome _ _ _ _ = _, H' : upload_outcome _ _ _ _ = _ |- _ =>
        rewrite H in H'; try discriminate H'; by injection H' as ->
    end.
Qed.

Lemma upload_folder_item_unavailable env identifier metadata target ni stdin f :
  get_item_outcome env identifier = Some f →
  Forall (λ e, late_event e = false ∧ is_upload e = false)
         (events (upload_folder env identifier metadata target ni stdin))
  ∧ rest (upload_folder env identifier metadata target ni stdin) = stdin.
Proof.
  intros Hf. unfold upload_folder. run_py. rewrite Hf.
  destruct f; run_py; (split; [|reflexivity]); repeat constructor;
    destruct identifier as [|?|[]]; reflexivity.
Qed.

Lemma upload_folder_calls_once env identifier metadata target ni stdin :
  length (List.filter is_get_item
            (events (upload_folder env identifier metadata target ni stdin))) = 1
  ∧ (length (List.filter is_upload
               (events (upload_folder env identifier metadata target ni stdin)))
     ≤ 1)%nat.
Proof.
  upload_cases; cbn [List.filter is_get_item is_upload length]; split;
    (reflexivity || lia).
Qed.

(** ** Runs with [--yes] *)

(** X1: with [--yes] the program never calls [input()]: it leaves standard
    input untouched and shows no prompt, whatever else happens. *)
Theorem yes_reads_no_input env args stdin :
  yes args = true →
  rest (main env args stdin) = stdin
  ∧ Forall (λ e, is_input e = false) (events (main env args stdin)).
Proof.
  intros Hyes. rewrite main_eq, resolve_metadata_eq, Hyes. cbv zeta.
  destruct (isdir env _); [|by split; repeat constructor].
  destruct (all_required args); [|by split; repeat constructor].
  destruct (flags_metadata args !! "identifier") as [id|];
    [|by split; repeat constructor].
  destruct (upload_folder_yes env id (delete "identifier" (flags_metadata args))
              (abspath env (folder args)) stdin) as [Hrest Hev].
  destruct (upload_folder _ _ _ _ _ _) as [r st evs]. cbn [rest events] in *.
  split; [done|]. by constructor.
Qed.

Lemma yes_reads_no_input_witness :
  rest (main Scenario.online Scenario.all_flags ["n"; "left alone"])
  = ["n"; "left alone"]
  ∧ Forall (λ e, is_input e = false)
           (events (main Scenario.online Scenario.all_flags ["n"; "left alone"])).
Proof.
  apply (yes_reads_no_input Scenario.online Scenario.all_flags). reflexivity.
Defined.

(** ** How the upload stage ends *)

(** X2: when the upload call returns normally, the run ends with status 0,
    and right after the call come the completion line and the link
    [https://archive.org/details/<identifier>] of the item uploaded to. *)
Theorem successful_upload_ends_with_link env args stdin item files metadata :
  Upload item files metadata ∈ events (main env args stdin) →
  upload_outcome env item files metadata = None →
  res (main env args stdin) = Ok tt
  ∧ exit_status (res (main env args stdin)) = 0
  ∧ ∃ pre,
      events (main env args stdin)
      = (pre ++ [Upload item files metadata; Print msg_complete;
                 Print (msg_view item)])%list.
Proof.
  intros Hin Hnone.
  destruct (main_cases env args stdin)
    as [(x & _ & Hq)|(pre & record & id & st & Hq & _ & _ & Hmain)].
  { rewrite Forall_forall in Hq. by specialize (Hq _ Hin). }
  rewrite Hmain in Hin |- *. cbn [events res] in *.
  split_and!; try reflexivity.
  apply elem_of_app in Hin as [Hin|Hin].
  { rewrite Forall_forall in Hq. by specialize (Hq _ Hin). }
  pose proof Hin as (-> & _)%upload_folder_upload.
  destruct (upload_folder_success _ _ _ _ _ _ _ _ _ Hin Hnone) as [pre' ->].
  exists (pre ++ pre')%list. by rewrite app_assoc.
Qed.

Lemma successful_upload_ends_with_link_witness :
  res (main Scenario.online Scenario.all_flags []) = Ok tt
  ∧ exit_status (res (main Scenario.online Scenario.all_flags [])) = 0
  ∧ ∃ pre,
      events (main Scenario.online Scenario.all_flags [])
      = (pre ++ [Upload (VStr "my-item") Scenario.data_files
                   Scenario.all_flags_record;
                 Print msg_complete; Print (msg_view (VStr "my-item"))])%list.
Proof.
  apply (successful_upload_ends_with_link Scenario.online Scenario.all_flags []).
  - vm_compute. find_elem.
  - reflexivity.
Defined.

(** X3: a failure of a client call that is not an authentication failure
    is caught as well: [main] returns normally (exit status 0) and the last
    line printed is the catch-all message with the failure's text. *)
Theorem other_failure_is_reported env args stdin text :
  (∃ item, GetItem item ∈ events (main env args stdin)
           ∧ get_item_outcome env item = Some (OtherFailure text))
  ∨ (∃ item files metadata,
        Upload item files metadata ∈ events (main env args stdin)
        ∧ upload_outcome env item files metadata = Some (OtherFailure text)) →
  res (main env args stdin) = Ok tt
  ∧ exit_status (res (main env args stdin)) = 0
  ∧ last (events (main env args stdin)) = Some (Print (msg_unexpected text)).
Proof.
  intros Hfail.
  destruct (main_cases env args stdin)
    as [(x & _ & Hq)|(pre & record & id & st & Hq & _ & _ & Hmain)].
  { rewrite Forall_forall in Hq.
    destruct Hfail as [(i & Hin & _)|(i & f & m & Hin & _)];
      by specialize (Hq _ Hin). }
  rewrite Hmain in Hfail |- *. cbn [events res] in *.
  split_and!; try reflexivity.
  assert (last (events (upload_folder env id (delete "identifier" record)
                          (abspath env (folder args)) (yes args) st))
          = Some (Print (msg_unexpected text))) as Hlast.
  { apply upload_folder_other_failure.
    destruct Hfail as [(i & Hin & Ho)|(i & f & m & Hin & Ho)].
    - left. apply elem_of_app in Hin as [Hin|Hin].
      { rewrite Forall_forall in Hq. by specialize (Hq _ Hin). }
      by apply upload_folder_get_item in Hin as ->.
    - right. exists i, f, m. split; [|done].
      apply elem_of_app in Hin as [Hin|Hin]; [|done].
      rewrite Forall_forall in Hq. by specialize (Hq _ Hin). }
  destruct (events (upload_folder _ _ _ _ _ _)) as [|e evs] using rev_ind;
    [discriminate Hlast|].
  rewrite last_snoc in Hlast. rewrite app_assoc, last_snoc. done.
Qed.

Lemma other_failure_is_reported_witness :
  res (main Outage.offline Scenario.all_flags []) = Ok tt
  ∧ exit_status (res (main Outage.offline Scenario.all_flags [])) = 0
  ∧ last (events (main Outage.offline Scenario.all_flags []))
    = Some (Print (msg_unexpected "Connection refused")).
Proof.
  apply (other_failure_is_reported Outage.offline Scenario.all_flags []).
  left. exists (VStr "my-item"). split; [vm_compute; find_elem | reflexivity].
Defined.

(** X4: when the item cannot be opened, the run stops there: the folder is
    not walked, no confirmation is asked, nothing is uploaded, and [main]
    still returns normally. *)
Theorem unavailable_item_stops_the_run env args stdin item f :
  GetItem item ∈ events (main env args stdin) →
  get_item_outcome env item = Some f →
  Forall (λ e, late_event e = false ∧ is_upload e = false)
         (events (main env args stdin))
  ∧ res (main env args stdin) = Ok tt.
Proof.
  intros Hin Hf.
  destruct (main_cases env args stdin)
    as [(x & _ & Hq)|(pre & record & id & st & Hq & _ & _ & Hmain)].
  { rewrite Forall_forall in Hq. by specialize (Hq _ Hin). }
  rewrite Hmain in Hin |- *. cbn [events res] in *.
  split; [|reflexivity].
  apply elem_of_app in Hin as [Hin|Hin].
  { rewrite Forall_forall in Hq. by specialize (Hq _ Hin). }
  apply upload_folder_get_item in Hin as ->.
  apply Forall_app. split.
  - eapply Forall_impl; [exact Hq|]. intros e He. by apply stage_event_false.
  - by eapply upload_folder_item_unavailable.
Qed.

Lemma unavailable_item_stops_the_run_witness :
  Forall (λ e, late_event e = false ∧ is_upload e = false)
         (events (main Outage.offline Scenario.all_flags []))
  ∧ res (main Outage.offline Scenario.all_flags []) = Ok tt.
Proof.
  apply (unavailable_item_stops_the_run Outage.offline Scenario.all_flags []
           (VStr "my-item") (OtherFailure "Connection refused")).
  - vm_compute. find_elem.
  - reflexivity.
Defined.

(** X5: no run opens more than one item or makes more than one upload
    call. *)
Theorem client_called_at_most_once env args stdin :
  (length (List.filter is_get_item (events (main env args stdin))) ≤ 1)%nat
  ∧ (length (List.filter is_upload (events (main env args stdin))) ≤ 1)%nat.
Proof.
  destruct (main_cases env args stdin)
    as [(x & _ & Hq)|(pre & record & id & st & Hq & _ & _ & Hmain)].
  - rewrite !filter_quiet; [cbn; lia|..];
      (eapply Forall_impl; [exact Hq|]); intros [] He; cbn in *; congruence.
  - rewrite Hmain. cbn [events]. rewrite !List.filter_app, !length_app.
    destruct (upload_folder_calls_once env id (delete "identifier" record)
                (abspath env (folder args)) (yes args) st) as [-> Hle].
    rewrite !(filter_quiet _ pre); [cbn [length]; lia|..];
      (eapply Forall_impl; [exact Hq|]); intros [] He; cbn in *; congruence.
Qed.

(** ** What [get_user_input] reads and returns *)

Lemma get_user_input_eq keys stdin :
  get_user_input keys stdin =
  match prompt_all keys ∅ stdin with
  | mkOut r stdin' evs => mkOut r stdin' (Print msg_banner :: evs)
  end.
Proof.
  unfold get_user_input. run_py.
  by destruct (prompt_all keys ∅ stdin) as [[md|x] st evs].
Qed.

(** One prompt reads a prefix of the input, one line each time it is
    shown; it either stores one of these lines, stripped and non-empty,
    under its key or leaves the record alone, and it fails only at the end
    of the input. *)
Lemma prompt_loop_reads key prompt required metadata stdin :
  ∃ used,
    stdin = (used ++ rest (prompt_loop key prompt required metadata stdin))%list
    ∧ match res (prompt_loop key prompt required metadata stdin) with
      | Ok metadata' =>
          length (List.filter is_input
                    (events (prompt_loop key prompt required metadata stdin)))
          = length used
          ∧ (metadata' = metadata
             ∨ ∃ line, line ∈ used ∧ Str.strip line ≠ ""
                       ∧ metadata' = <[key := VStr (Str.strip line)]> metadata)
      | Raise x =>
          x = EOFError
          ∧ rest (prompt_loop key prompt required metadata stdin) = []
          ∧ length (List.filter is_input
                      (events (prompt_loop key prompt required metadata stdin)))
            = S (length used)
      end.
Proof.
  induction stdin as [|line stdin IH]; cbn [prompt_loop].
  - exists []. by cbn.
  - destruct (Str.nonempty (Str.strip line)) eqn:Hv; cbn [orb].
    + exists [line]. cbn. split_and!; try done. right. exists line.
      split_and!; [apply list_elem_of_here | by apply nonempty_true | done].
    + destruct required; cbn [negb].
      * destruct IH as (used & Hused & IH).
        destruct (prompt_loop key prompt true metadata stdin) as [[md|x] st evs];
          cbn [res rest events List.filter is_input length] in *;
          exists (line :: used); (split; [by rewrite Hused at 1|]).
        -- destruct IH as [-> IH]. split; [done|].
           destruct IH as [->|(l & Hl & Hne & ->)]; [by left|right].
           exists l. split_and!; [by apply list_elem_of_further|done..].
        -- destruct IH as (-> & -> & ->). done.
      * exists [line]. cbn. split_and!; try done. by left.
Qed.

Lemma prompt_all_reads keys metadata stdin :
  ∃ used,
    stdin = (used ++ rest (prompt_all keys metadata stdin))%list
    ∧ match res (prompt_all keys metadata stdin) with
      | Ok metadata' =>
          length (List.filter is_input (events (prompt_all keys metadata stdin)))
          = length used
          ∧ ∀ k v, metadata' !! k = Some v →
              metadata !! k = Some v
              ∨ ∃ p r line, (k, p, r) ∈ keys ∧ line ∈ used
                            ∧ Str.strip line ≠ "" ∧ v = VStr (Str.strip line)
      | Raise x =>
          x = EOFError
          ∧ rest (prompt_all keys metadata stdin) = []
          ∧ length (List.filter is_input
                      (events (prompt_all keys metadata stdin)))
            = S (length used)
      end.
Proof.
  revert metadata stdin.
  induction keys as [|[[key prompt] required] keys IH]; intros metadata stdin.
  - exists []. cbn. split_and!; try done. intros k v Hk. by left.
  - cbn [prompt_all]. run_py.
    destruct (prompt_loop_reads key prompt required metadata stdin)
      as (used1 & Hused1 & H1).
    destruct (prompt_loop key prompt required metadata stdin)
      as [[md|x] st evs]; cbn [res rest events] in *.
    + destruct (IH md st) as (used2 & Hused2 & H2).
      destruct (prompt_all keys md st) as [[md'|x] st' evs'];
        cbn [res rest events] in *;
        exists (used1 ++ used2)%list;
        (split; [by rewrite <- app_assoc, <- Hused2|]);
        rewrite List.filter_app, !length_app; destruct H1 as [-> H1].
      * destruct H2 as [-> H2]. split; [done|]. intros k v Hk.
        destruct (H2 k v Hk) as [Hmd|(p & r & l & Hp & Hl & Hne & ->)].
        -- destruct H1 as [->|(l & Hl & Hne & ->)]; [by left|].
           destruct (decide (k = key)) as [->|Hkey].
           ++ rewrite lookup_insert_eq in Hmd. injection Hmd as <-.
              right. exists prompt, required, l.
              split_and!; try done; [apply list_elem_of_here|].
              apply elem_of_app. by left.
           ++ rewrite lookup_insert_ne in Hmd by done. by left.
        -- right. exists p, r, l.
           split_and!; try done; [by apply list_elem_of_further|].
           apply elem_of_app. by right.
      * destruct H2 as (-> & -> & ->). split_and!; first [done | lia].
    + exists used1. done.
Qed.



(** X7: [get_user_input] reads a prefix of the input, exactly one line for
    every prompt it shows. It fails only with [EOFError], with the whole
    input read and one more prompt shown than there were lines. *)
Theorem get_user_input_reads_a_line_per_prompt keys stdin :
  ∃ used,
    stdin = (used ++ rest (get_user_input keys stdin))%list
    ∧ match res (get_user_input keys stdin) with
      | Ok _ =>
          length (List.filter is_input (events (get_user_input keys stdin)))
          = length used
      | Raise x =>
          x = EOFError
          ∧ rest (get_user_input keys stdin) = []
          ∧ length (List.filter is_input
                      (events (get_user_input keys stdin)))
            = S (length stdin)
      end.
Proof.
  rewrite get_user_input_eq.
  destruct (prompt_all_reads keys ∅ stdin) as (used & Hused & H).
  destruct (prompt_all keys ∅ stdin) as [[md|x] st evs];
    cbn [res rest events List.filter is_input] in *; exists used.
  - split; [done|]. by destruct H.
  - destruct H as (-> & -> & Hlen). rewrite app_nil_r in Hused.
    split_and!;
      first [done | by rewrite app_nil_r | by rewrite Hlen, Hused].
Qed.

(** ** The end of the input *)

Lemma prompt_all_blank_eof keys metadata stdin key prompt :
  (key, prompt, true) ∈ keys → Forall blank stdin →
  res (prompt_all keys metadata stdin) = Raise EOFError.
Proof.
  revert metadata stdin.
  induction keys as [|[[k p] r] keys IH]; intros metadata stdin Hin Hblank.
  - by apply elem_of_nil in Hin.
  - cbn [prompt_all]. run_py. destruct r.
    + pose proof (prompt_loop_required_eof k p metadata stdin Hblank) as H1.
      destruct (prompt_loop k p true metadata stdin) as [[md|x] st evs];
        cbn [res] in *; [discriminate|done].
    + apply elem_of_cons in Hin as [[=]|Hin].
      destruct Hblank as [|line stdin Hb Hblank]; [done|].
      rewrite prompt_loop_optional_blank by done.
      specialize (IH metadata stdin Hin Hblank).
      by destruct (prompt_all keys metadata stdin) as [[md|x] st evs];
        cbn [res] in *; simplify_eq.
Qed.

(** X8: a required field has no flag, [--yes] is not given, and the input
    holds nothing but blank lines (or nothing at all): the program keeps
    asking until the input ends and then dies with [EOFError], exit status
    1, before any call of the client. *)
Theorem blank_answers_end_in_EOFError env args stdin :
  isdir env (abspath env (folder args)) = true →
  yes args = false →
  identifier args = None ∨ title args = None
  ∨ creator args = None ∨ mediatype args = None →
  Forall blank stdin →
  res (main env args stdin) = Raise EOFError
  ∧ exit_status (res (main env args stdin)) = 1
  ∧ Forall (λ e, stage_event e = false) (events (main env args stdin)).
Proof.
  intros Hdir Hyes Hnone Hblank.
  assert (all_required args = false) as Hall.
  { unfold all_required.
    destruct Hnone as [-> | [-> | [-> | ->]]]; cbn [of_arg truthy];
      rewrite ?andb_false_r; reflexivity. }
  assert (∃ key prompt, (key, prompt, true) ∈ missing_prompts args)
    as (key & prompt & Hin).
  { rewrite missing_prompts_eq.
    destruct Hnone as [-> | [-> | [-> | ->]]]; do 2 eexists;
      repeat first [ apply list_elem_of_here
                   | apply elem_of_app; left; apply list_elem_of_here
                   | apply elem_of_app; right ]. }
  pose proof (prompt_all_blank_eof _ ∅ stdin _ _ Hin Hblank) as Heof.
  destruct (main_cases env args stdin)
    as [(x & Hres & Hq)|(pre & record & id & st & _ & Hrec & _)].
  - revert Hres Hq. rewrite main_eq, resolve_metadata_eq. cbv zeta.
    rewrite Hdir, Hall, Hyes.
    destruct (prompt_all _ _ _) as [[md|y] st evs]; cbn [res] in *;
      [discriminate|]. injection Heof as ->. by intros _ Hq.
  - revert Hrec. rewrite resolve_metadata_eq, Hall, Hyes.
    by destruct (prompt_all _ _ _) as [[md|y] st' evs].
Qed.

Lemma blank_answers_end_in_EOFError_witness :
  res (main Scenario.online Slip.absent_identifier [""; "   "]) = Raise EOFError
  ∧ exit_status (res (main Scenario.online Slip.absent_identifier [""; "   "]))
    = 1
  ∧ Forall (λ e, stage_event e = false)
           (events (main Scenario.online Slip.absent_identifier [""; "   "])).
Proof.
  apply (blank_answers_end_in_EOFError Scenario.online Slip.absent_identifier
           [""; "   "]).
  - vm_compute. reflexivity.
  - reflexivity.
  - left. reflexivity.
  - repeat constructor.
Defined.

(** ** The record [main] resolves *)

Lemma truthy_of_arg o : truthy (of_arg o) = true → filled (of_arg o).
Proof.
  destruct o as [s|]; [|discriminate]. cbn [of_arg truthy].
  intros Hs%nonempty_true. by exists s.
Qed.

Lemma missing_prompts_elem args key prompt required :
  (key, prompt, required) ∈ missing_prompts args ↔
  (key, prompt, required) ∈ metadata_prompts ∧ getattr args key VNone = VNone.
Proof.
  unfold missing_prompts. rewrite list_elem_of_filter. cbn [fst].
  destruct (getattr args key VNone); cbn [is_None Is_true]; intuition congruence.
Qed.

Lemma metadata_prompts_keys key prompt required :
  (key, prompt, required) ∈ metadata_prompts →
  key = "identifier" ∨ key ∈ descriptive_keys.
Proof.
  unfold metadata_prompts, descriptive_keys. intros Hin.
  elem_cases Hin; injection Hin as -> _ _; [by left|right..]; find_elem.
Qed.

(** The flags merged on the prompting path: those of the five like-named
    keys that are given and not empty. *)
Lemma combine_cli_lookup args key :
  combine_cli args ∅ !! key =
  if bool_decide (key ∈ like_named_keys) && truthy (getattr args key VNone)
  then Some (getattr args key VNone) else None.
Proof.
  rewrite combine_cli_eq. unfold like_named_keys.
  destruct (decide (key = "description")) as [->|?];
    [by rewrite set_if_lookup, !set_if_lookup_ne|].
  rewrite set_if_lookup_ne by done.
  destruct (decide (key = "mediatype")) as [->|?];
    [by rewrite set_if_lookup, !set_if_lookup_ne|].
  rewrite set_if_lookup_ne by done.
  destruct (decide (key = "creator")) as [->|?];
    [by rewrite set_if_lookup, !set_if_lookup_ne|].
  rewrite set_if_lookup_ne by done.
  destruct (decide (key = "title")) as [->|?];
    [by rewrite set_if_lookup, !set_if_lookup_ne|].
  rewrite set_if_lookup_ne by done.
  destruct (decide (key = "identifier")) as [->|?];
    [by rewrite set_if_lookup|].
  rewrite set_if_lookup_ne, lookup_empty by done.
  rewrite bool_decide_eq_false_2; [done|].
  intros Hin. elem_cases Hin; congruence.
Qed.

Lemma flags_metadata_lookup args :
  all_required args = true →
  flags_metadata args !! "identifier" = Some (of_arg (identifier args))
  ∧ flags_metadata args !! "title" = Some (of_arg (title args))
  ∧ flags_metadata args !! "creator" = Some (of_arg (creator args))
  ∧ flags_metadata args !! "mediatype" = Some (of_arg (mediatype args))
  ∧ flags_metadata args !! "description" = given (description args)
  ∧ flags_metadata args !! "subject" = given (subjects args)
  ∧ flags_metadata args !! "date" = given (year args)
  ∧ ∀ key, key ≠ "identifier" → key ∉ descriptive_keys →
           flags_metadata args !! key = None.
Proof.
  intros _. unfold flags_metadata, given.
  split_and!;
    repeat first [rewrite set_if_lookup | rewrite set_if_lookup_ne by done];
    try (by destruct (truthy _); simplify_map_eq); try by simplify_map_eq.
  intros key Hid Hkey.
  assert (∀ k, k ∈ descriptive_keys → key ≠ k) as Hne by (intros k Hk ->; done).
  rewrite !set_if_lookup_ne by (apply not_eq_sym, Hne; unfold descriptive_keys; find_elem).
  rewrite !lookup_insert_ne, lookup_empty;
    first [done | apply not_eq_sym, Hne; unfold descriptive_keys; find_elem | done].
Qed.

(** The entries of the record the prompts return, on the prompting path. *)
Lemma user_metadata_lookup args stdin user_metadata key v :
  res (prompt_all (missing_prompts args) ∅ stdin) = Ok user_metadata →
  user_metadata !! key = Some v →
  filled v ∧ getattr args key VNone = VNone
  ∧ (key = "identifier" ∨ key ∈ descriptive_keys).
Proof.
  intros Hres Hk.
  destruct (prompt_all_reads (missing_prompts args) ∅ stdin) as (used & _ & H).
  rewrite Hres in H. destruct H as [_ H].
  destruct (H key v Hk) as [Hempty|(p & r & l & Hp & _ & Hne & ->)];
    [by rewrite lookup_empty in Hempty|].
  apply missing_prompts_elem in Hp as [Hp Hnone].
  split_and!; [by eexists | done | by eapply metadata_prompts_keys].
Qed.

(** Every entry of the resolved record is a non-empty string under one of
    the seven keys. *)
Lemma resolve_metadata_record args stdin record key v :
  res (resolve_metadata args stdin) = Ok record →
  record !! key = Some v →
  filled v ∧ (key = "identifier" ∨ key ∈ descriptive_keys).
Proof.
  rewrite resolve_metadata_eq.
  destruct (all_required args) eqn:Hall.
  - intros [= <-] Hk.
    destruct (flags_metadata_lookup args Hall)
      as (Hi & Ht & Hc & Hm & Hd & Hs & Hy & Hrest).
    unfold all_required in Hall.
    apply andb_prop in Hall as [[[Hi'%truthy_of_arg Ht'%truthy_of_arg]%andb_prop
                                   Hc'%truthy_of_arg]%andb_prop Hm'%truthy_of_arg].
    destruct (decide (key = "identifier")) as [->|Hid];
      [split; [congruence|by left]|].
    destruct (decide (key ∈ descriptive_keys)) as [Hin|Hout];
      [|by rewrite Hrest in Hk].
    split; [|by right].
    unfold descriptive_keys in Hin. unfold given in *.
    elem_cases Hin; subst key; try congruence.
    + rewrite Hd in Hk. destruct (truthy _) eqn:E; [|done].
      injection Hk as <-. by apply truthy_of_arg.
    + rewrite Hs in Hk. destruct (truthy _) eqn:E; [|done].
      injection Hk as <-. by apply truthy_of_arg.
    + rewrite Hy in Hk. destruct (truthy _) eqn:E; [|done].
      injection Hk as <-. by apply truthy_of_arg.
  - destruct (yes args); [discriminate|].
    pose proof (user_metadata_lookup args stdin) as Hum.
    destruct (prompt_all _ _ _) as [[um|x] st evs]; cbn [res] in *;
      [|discriminate].
    intros [= <-] [Hk|[_ Hk]]%lookup_union_Some_raw.
    + destruct (Hum um key v eq_refl Hk) as (? & _ & ?). done.
    + rewrite combine_cli_lookup in Hk.
      destruct (bool_decide _) eqn:Hb; [|done].
      destruct (truthy _) eqn:Ht; [|done]. injection Hk as <-.
      apply bool_decide_eq_true_1 in Hb. split.
      * unfold like_named_keys in Hb. unfold getattr in *.
        elem_cases Hb; subst key; by apply truthy_of_arg.
      * unfold like_named_keys, descriptive_keys in *.
        elem_cases Hb; subst key; [by left|right..]; find_elem.
Qed.

(** An event of the upload stage belongs to the run of [upload_folder] on
    the record [main] resolved, started on what the prompts left of the
    input. *)
Lemma main_upload_stage env args stdin e :
  e ∈ events (main env args stdin) → stage_event e = true →
  ∃ record id,
    res (resolve_metadata args stdin) = Ok record
    ∧ record !! "identifier" = Some id
    ∧ e ∈ events (upload_folder env id (delete "identifier" record)
                    (abspath env (folder args)) (yes args)
                    (rest (resolve_metadata args stdin)))
    ∧ rest (main env args stdin)
      = rest (upload_folder env id (delete "identifier" record)
                (abspath env (folder args)) (yes args)
                (rest (resolve_metadata args stdin))).
Proof.
  rewrite main_eq. cbv zeta.
  destruct (isdir env _); [|intros Hin; elem_cases Hin; by subst].
  pose proof (resolve_metadata_events args stdin) as Hev.
  assert (∀ evs, (∀ x, x ∈ evs → resolver_event x) →
            e ∈ Print ("📁 Preparing to upload contents of: "
                       +:+ abspath env (folder args)) :: evs →
            stage_event e = true → False) as Hquiet.
  { intros evs Hevs [->|Hin]%elem_of_cons He; [done|].
    destruct (resolver_event_quiet e (Hevs _ Hin)) as [Hq _]. congruence. }
  destruct (resolve_metadata args stdin) as [[record|x] st evs];
    cbn [events res rest] in *; [|intros Hin He; by destruct (Hquiet evs)].
  destruct (record !! "identifier") as [id|] eqn:Hid;
    [|intros Hin He; by destruct (Hquiet evs)].
  destruct (upload_folder _ _ _ _ _ _) as [r st' evs'] eqn:Hup.
  cbn [events rest]. intros Hin He. exists record, id.
  rewrite !Hup. cbn [events rest]. split_and!; try done.
  rewrite app_comm_cons in Hin. apply elem_of_app in Hin as [Hin|Hin]; [|done].
  by destruct (Hquiet evs).
Qed.

Lemma main_upload_record env args stdin item files metadata :
  Upload item files metadata ∈ events (main env args stdin) →
  ∃ record,
    res (resolve_metadata args stdin) = Ok record
    ∧ record !! "identifier" = Some item
    ∧ metadata = delete "identifier" record.
Proof.
  intros Hin.
  destruct (main_upload_stage _ _ _ _ Hin eq_refl)
    as (record & id & Hres & Hid & Hup & _).
  apply upload_folder_upload in Hup as (-> & -> & _). eauto.
Qed.

(** ** What reaches the upload call *)

(** X9: the upload call is always given a non-empty string as item, and
    its metadata holds nothing but non-empty strings under the six
    descriptive keys. *)
Theorem upload_metadata_is_clean env args stdin item files metadata :
  Upload item files metadata ∈ events (main env args stdin) →
  filled item
  ∧ ∀ key v, metadata !! key = Some v → key ∈ descriptive_keys ∧ filled v.
Proof.
  intros (record & Hres & Hid & ->)%main_upload_record. split.
  - by destruct (resolve_metadata_record _ _ _ _ _ Hres Hid).
  - intros key v [Hne Hk]%lookup_delete_Some.
    destruct (resolve_metadata_record _ _ _ _ _ Hres Hk) as [Hv [->|Hkey]];
      done.
Qed.

Lemma upload_metadata_is_clean_witness :
  filled (VStr "my-item")
  ∧ ∀ key v, Mixed.metadata !! key = Some v →
             key ∈ descriptive_keys ∧ filled v.
Proof.
  apply (upload_metadata_is_clean Scenario.online Mixed.args Mixed.lines
           (VStr "my-item") Scenario.data_files Mixed.metadata).
  vm_compute. find_elem.
Defined.

(** X10: a required descriptive field reaches the upload call exactly when
    its flag is not the empty string: left out, it is asked for until it is
    answered; given as [""], it is neither taken nor asked for, and the
    upload goes ahead without it. *)
Theorem required_field_at_upload env args stdin item files metadata key :
  Upload item files metadata ∈ events (main env args stdin) →
  key ∈ ["title"; "creator"; "mediatype"] →
  is_Some (metadata !! key) ↔ getattr args key VNone ≠ VStr "".
Proof.
  intros (record & Hres & Hid & ->)%main_upload_record Hkey.
  assert (key ≠ "identifier") as Hne by (intros ->; elem_cases Hkey).
  rewrite lookup_delete_ne by done.
  assert (∃ prompt, (key, prompt, true) ∈ metadata_prompts) as [prompt Hprompt].
  { unfold metadata_prompts. elem_cases Hkey; subst key; eexists; find_elem. }
  assert (key ∈ like_named_keys) as Hlike.
  { unfold like_named_keys. elem_cases Hkey; subst key; find_elem. }
  revert Hres. rewrite resolve_metadata_eq.
  destruct (all_required args) eqn:Hall.
  - intros [= <-].
    destruct (flags_metadata_lookup args Hall) as (_ & Ht & Hc & Hm & _).
    unfold all_required in Hall.
    apply andb_prop in Hall as [[[_ Ht']%andb_prop Hc']%andb_prop Hm'].
    unfold getattr.
    elem_cases Hkey; subst key; cbn [String.eqb Ascii.eqb Bool.eqb];
      [rewrite Ht; destruct (title args) as [[]|]
      |rewrite Hc; destruct (creator args) as [[]|]
      |rewrite Hm; destruct (mediatype args) as [[]|]]; done.
  - destruct (yes args); [discriminate|].
    pose proof (user_metadata_lookup args stdin) as Hum.
    pose proof (prompt_all_required (missing_prompts args) ∅ stdin) as Hreq.
    destruct (prompt_all _ _ _) as [[um|x] st evs]; cbn [res] in *;
      [|discriminate].
    intros [= <-]. specialize (Hum um key). specialize (Hreq um key prompt eq_refl).
    rewrite lookup_union_is_Some, combine_cli_lookup, bool_decide_eq_true_2 by done.
    cbn [andb]. split.
    + intros [[v Hv]|Hc] Hempty.
      * destruct (Hum v eq_refl Hv) as (_ & Hnone & _). congruence.
      * rewrite Hempty in Hc. by destruct Hc.
    + intros Hempty.
      destruct (getattr args key VNone) as [|s|b] eqn:Hget.
      * left. destruct Hreq as (v & _ & ->); [|done].
        by apply missing_prompts_elem.
      * right. destruct s; [done|]. done.
      * exfalso. revert Hget. unfold getattr.
        elem_cases Hkey; subst key; cbn [String.eqb Ascii.eqb Bool.eqb];
          by destruct (title args), (creator args), (mediatype args).
Qed.

Lemma required_field_at_upload_witness :
  is_Some (Mixed.metadata !! "title")
  ↔ getattr Mixed.args "title" VNone ≠ VStr "".
Proof.
  apply (required_field_at_upload Scenario.online Mixed.args Mixed.lines
           (VStr "my-item") Scenario.data_files Mixed.metadata "title").
  - vm_compute. find_elem.
  - find_elem.
Defined.

(** X11: on the all-flags path the upload goes to the item [--identifier]
    names, with the title, creator and media type of the flags, and with
    [description], [subject] (from [--subjects]) and [date] (from
    [--year]) for those of the three flags that are given and not empty. *)
Theorem all_flags_reach_upload env args stdin item files metadata :
  all_required args = true →
  Upload item files metadata ∈ events (main env args stdin) →
  item = of_arg (identifier args)
  ∧ metadata !! "title" = Some (of_arg (title args))
  ∧ metadata !! "creator" = Some (of_arg (creator args))
  ∧ metadata !! "mediatype" = Some (of_arg (mediatype args))
  ∧ metadata !! "description" = given (description args)
  ∧ metadata !! "subject" = given (subjects args)
  ∧ metadata !! "date" = given (year args).
Proof.
  intros Hall (record & Hres & Hid & ->)%main_upload_record.
  revert Hres. rewrite resolve_metadata_eq, Hall. intros [= <-].
  destruct (flags_metadata_lookup args Hall)
    as (Hi & Ht & Hc & Hm & Hd & Hs & Hy & _).
  rewrite !lookup_delete_ne by done. split_and!; congruence.
Qed.

Lemma all_flags_reach_upload_witness :
  VStr "my-item" = of_arg (identifier Scenario.all_flags)
  ∧ Scenario.all_flags_record !! "title" = Some (of_arg (title Scenario.all_flags))
  ∧ Scenario.all_flags_record !! "creator"
    = Some (of_arg (creator Scenario.all_flags))
  ∧ Scenario.all_flags_record !! "mediatype"
    = Some (of_arg (mediatype Scenario.all_flags))
  ∧ Scenario.all_flags_record !! "description"
    = given (description Scenario.all_flags)
  ∧ Scenario.all_flags_record !! "subject" = given (subjects Scenario.all_flags)
  ∧ Scenario.all_flags_record !! "date" = given (year Scenario.all_flags).
Proof.
  apply (all_flags_reach_upload Scenario.online Scenario.all_flags []
           (VStr "my-item") Scenario.data_files Scenario.all_flags_record).
  - reflexivity.
  - vm_compute. find_elem.
Defined.

(** X12: a flag of one of the five like-named keys that is given and not
    empty is stored as given and its prompt is not shown, on either path;
    no answer can override it. *)
Theorem given_flag_is_kept_and_not_asked args stdin record key prompt required s :
  (key, prompt, required) ∈ metadata_prompts →
  getattr args key VNone = VStr s → s ≠ "" →
  res (resolve_metadata args stdin) = Ok record →
  record !! key = Some (VStr s)
  ∧ Input (prompt +:+ ": ") ∉ events (resolve_metadata args stdin).
Proof.
  intros Hprompt Hget Hs.
  assert (key ∈ like_named_keys) as Hlike.
  { pose proof Hprompt as Hp. unfold metadata_prompts, like_named_keys in *.
    elem_cases Hp; injection Hp as -> -> ->;
      first [discriminate Hget | find_elem]. }
  assert (truthy (getattr args key VNone) = true) as Htruthy
      by (rewrite Hget; by apply nonempty_true).
  rewrite resolve_metadata_eq.
  destruct (all_required args) eqn:Hall.
  - intros [= <-]. split; [|by intros ?%elem_of_nil].
    destruct (flags_metadata_lookup args Hall)
      as (Hi & Ht & Hc & Hm & Hd & _).
    unfold like_named_keys in Hlike. unfold given, getattr in *.
    elem_cases Hlike; subst key; cbn [String.eqb Ascii.eqb Bool.eqb] in *;
      try congruence.
    by rewrite Hd, Htruthy, Hget.
  - destruct (yes args); [discriminate|].
    pose proof (user_metadata_lookup args stdin) as Hum.
    pose proof (prompt_all_events (missing_prompts args) ∅ stdin) as Hev.
    destruct (prompt_all _ _ _) as [[um|x] st evs]; cbn [res events] in *;
      [|discriminate].
    intros [= <-]. split.
    + apply lookup_union_Some_raw. right. split.
      * destruct (um !! key) as [v|] eqn:Hv; [|done].
        destruct (Hum um key v eq_refl Hv) as (_ & Hnone & _). congruence.
      * by rewrite combine_cli_lookup, bool_decide_eq_true_2, Htruthy, Hget.
    + intros [[=]|Hin]%elem_of_cons.
      destruct (Hev _ Hin) as [[=]|([[k p] r] & Hp & Heq)].
      apply missing_prompts_elem in Hp as [Hp Hnone]. cbn [fst snd] in Heq.
      assert (k = key) as ->; [|congruence].
      unfold metadata_prompts in Hp, Hprompt.
      elem_cases Hp; injection Hp as -> -> ->;
        elem_cases Hprompt; injection Hprompt as -> -> ->;
        first [reflexivity | discriminate Heq].
Qed.

Lemma given_flag_is_kept_and_not_asked_witness :
  Mixed.record !! "mediatype" = Some (VStr "texts")
  ∧ Input ("Enter media type (e.g., texts, movies, data)" +:+ ": ")
    ∉ events (resolve_metadata Mixed.args Mixed.lines).
Proof.
  apply (given_flag_is_kept_and_not_asked Mixed.args Mixed.lines Mixed.record
           "mediatype" "Enter media type (e.g., texts, movies, data)" true
           "texts").
  - unfold metadata_prompts. find_elem.
  - reflexivity.
  - discriminate.
  - vm_compute. reflexivity.
Defined.

(** ** Exit status *)


(** X14: a run that ends with a non-zero status has made no call of the
    client and has not entered the upload stage at all. *)
Theorem failed_run_never_calls_client env args stdin :
  exit_status (res (main env args stdin)) ≠ 0 →
  Forall (λ e, stage_event e = false) (events (main env args stdin)).
Proof.
  intros Hexit.
  destruct (main_cases env args stdin)
    as [(x & _ & Hq)|(pre & record & id & st & _ & _ & _ & Hmain)]; [done|].
  by rewrite Hmain in Hexit.
Qed.

Lemma failed_run_never_calls_client_witness :
  Forall (λ e, stage_event e = false)
         (events (main Scenario.online Slip.empty_identifier [""; ""; ""; "y"])).
Proof.
  apply (failed_run_never_calls_client Scenario.online Slip.empty_identifier
           [""; ""; ""; "y"]).
  vm_compute. discriminate.
Defined.



(** ** The order of the two stages *)

(** X16: once the upload stage has begun, no metadata prompt follows: the
    record is complete before the item is opened. *)
Theorem prompts_precede_upload_stage env args stdin pre e post :
  events (main env args stdin) = (pre ++ e :: post)%list →
  stage_event e = true →
  Forall (λ e', metadata_prompting e' = false) post.
Proof.
  intros Heq He.
  destruct (main_cases env args stdin)
    as [(x & _ & Hq)|(pre0 & record & id & st & Hq & _ & _ & Hmain)].
  { rewrite Heq, Forall_app, Forall_cons in Hq. destruct Hq as (_ & Hq & _).
    congruence. }
  rewrite Hmain in Heq. cbn [events] in Heq.
  destruct (split_after_quiet stage_event _ _ _ _ _ Hq He Heq)
    as (pre' & _ & Hup).
  pose proof (upload_folder_metadata_prompting env id
                (delete "identifier" record) (abspath env (folder args))
                (yes args) st) as Hall.
  rewrite Hup, Forall_app, Forall_cons in Hall. by destruct Hall as (_ & _ & ?).
Qed.

Lemma prompts_precede_upload_stage_witness :
  Forall (λ e', metadata_prompting e' = false)
         [Rglob "/data"; Print "Found 2 file(s) to potentially upload.";
          Input confirm_prompt; Print msg_cancelled].
Proof.
  apply (prompts_precede_upload_stage Scenario.online Mixed.args
           ["A title"; "Someone"; ""; "1999"; "n"]
           [Print "📁 Preparing to upload contents of: /data";
            Print msg_banner;
            Input "Enter a title: "; Input "Enter the creator/author: ";
            Input "Enter subjects/tags, comma-separated (optional): ";
            Input "Enter year (optional): ";
            Print msg_start; Print "→ Target Identifier: my-item"]
           (GetItem (VStr "my-item"))).
  - vm_compute. reflexivity.
  - reflexivity.
Defined.

(** ** The confirmation *)

Lemma lower_ascii_y c :
  Str.lower_ascii c = "y"%char → c = "y"%char ∨ c = "Y"%char.
Proof.
  destruct c as [[] [] [] [] [] [] [] []]; vm_compute; intros H;
    first [discriminate H | by left | by right].
Qed.

(** Only two answers lower to ["y"]. *)
Lemma lower_y s : Str.lower s = "y" ↔ s = "y" ∨ s = "Y".
Proof.
  split; [|by intros [-> | ->]].
  destruct s as [|c [|c' s]]; cbn [Str.lower]; [discriminate| |discriminate].
  intros [= Hc]. by destruct (lower_ascii_y c Hc) as [-> | ->]; [left|right].
Qed.

Lemma resolve_metadata_reads args stdin :
  ∃ used, stdin = (used ++ rest (resolve_metadata args stdin))%list.
Proof.
  rewrite resolve_metadata_eq.
  destruct (all_required args); [by exists []|].
  destruct (yes args); [by exists []|].
  destruct (prompt_all_reads (missing_prompts args) ∅ stdin) as (used & Hused & _).
  exists used. by destruct (prompt_all _ _ _) as [[um|x] st evs].
Qed.

Lemma upload_folder_confirmed env identifier metadata target stdin i f m :
  Upload i f m ∈ events (upload_folder env identifier metadata target false stdin) →
  ∃ line,
    stdin = line :: rest (upload_folder env identifier metadata target false stdin)
    ∧ (line = "y" ∨ line = "Y").
Proof.
  upload_cases; intros Hin; elem_cases Hin;
    match goal with
    | H : String.eqb (Str.lower ?s) "y" = true |- _ =>
        apply String.eqb_eq, lower_y in H; exists s; by split
    end.
Qed.

(** X17: without [--yes], files are uploaded only if the last line the
    program read, the answer to the confirmation, is [y] or [Y]; nothing
    is read after it. *)
Theorem upload_only_after_yes_answer env args stdin item files metadata :
  yes args = false →
  Upload item files metadata ∈ events (main env args stdin) →
  ∃ before line,
    stdin = (before ++ line :: rest (main env args stdin))%list
    ∧ (line = "y" ∨ line = "Y").
Proof.
  intros Hyes Hin.
  destruct (main_upload_stage _ _ _ _ Hin eq_refl)
    as (record & id & _ & _ & Hup & ->).
  rewrite Hyes in *.
  destruct (upload_folder_confirmed _ _ _ _ _ _ _ _ Hup) as (line & Hline & Hy).
  destruct (resolve_metadata_reads args stdin) as (before & Hbefore).
  exists before, line. split; [|done]. by rewrite <- Hline.
Qed.

Lemma upload_only_after_yes_answer_witness :
  ∃ before line,
    ["A title"; "Someone"; ""; "1999"; "Y"; "not read"]
    = (before
       ++ line :: rest (main Scenario.online Mixed.args
                          ["A title"; "Someone"; ""; "1999"; "Y"; "not read"]))%list
    ∧ (line = "y" ∨ line = "Y").
Proof.
  apply (upload_only_after_yes_answer Scenario.online Mixed.args
           ["A title"; "Someone"; ""; "1999"; "Y"; "not read"]
           (VStr "my-item") Scenario.data_files Mixed.metadata).
  - reflexivity.
  - vm_compute. find_elem.
Defined.

(** X18: any other answer cancels, be it [yes], [ y] or the empty line:
    the run ends after the cancellation line, without an upload call and
    without error, and with the rest of the input unread. *)
Theorem other_answers_cancel env identifier metadata target line stdin :
  get_item_outcome env identifier = None →
  files_to_upload env target ≠ [] →
  line ≠ "y" → line ≠ "Y" →
  res (upload_folder env identifier metadata target false (line :: stdin)) = Ok tt
  ∧ rest (upload_folder env identifier metadata target false (line :: stdin))
    = stdin
  ∧ Forall (λ e, is_upload e = false)
           (events (upload_folder env identifier metadata target false
                      (line :: stdin)))
  ∧ ∃ pre,
      events (upload_folder env identifier metadata target false (line :: stdin))
      = (pre ++ [Input confirm_prompt; Print msg_cancelled])%list.
Proof.
  intros Hitem Hfiles Hy HY. unfold upload_folder. run_py. rewrite Hitem. run_py.
  destruct (files_to_upload env target) as [|file files'] eqn:E; [done|]. run_py.
  destruct (String.eqb (Str.lower line) "y") eqn:Hl.
  { apply String.eqb_eq, lower_y in Hl as [|]; done. }
  run_py. split_and!; try reflexivity; [by repeat constructor|].
  split_off_suffix.
Qed.

Lemma other_answers_cancel_witness :
  res (upload_folder Scenario.online (VStr "my-item") ∅ "/data" false
         ["yes"; "left"]) = Ok tt
  ∧ rest (upload_folder Scenario.online (VStr "my-item") ∅ "/data" false
            ["yes"; "left"]) = ["left"]
  ∧ Forall (λ e, is_upload e = false)
           (events (upload_folder Scenario.online (VStr "my-item") ∅ "/data"
                      false ["yes"; "left"]))
  ∧ ∃ pre,
      events (upload_folder Scenario.online (VStr "my-item") ∅ "/data" false
                ["yes"; "left"])
      = (pre ++ [Input confirm_prompt; Print msg_cancelled])%list.
Proof.
  apply (other_answers_cancel Scenario.online (VStr "my-item") ∅ "/data"
           "yes" ["left"]); (reflexivity || discriminate || (vm_compute; discriminate)).
Defined.

(** X19: when the input ends at the confirmation, the [EOFError] of
    [input] is caught by the catch-all handler: the run reports it as an
    unexpected error and returns normally, nothing uploaded. *)
Theorem end_of_input_at_confirmation env identifier metadata target :
  get_item_outcome env identifier = None →
  files_to_upload env target ≠ [] →
  res (upload_folder env identifier metadata target false []) = Ok tt
  ∧ Forall (λ e, is_upload e = false)
           (events (upload_folder env identifier metadata target false []))
  ∧ ∃ pre,
      events (upload_folder env identifier metadata target false [])
      = (pre ++ [Input confirm_prompt;
                 Print (msg_unexpected "EOF when reading a line")])%list.
Proof.
  intros Hitem Hfiles. unfold upload_folder. run_py. rewrite Hitem. run_py.
  destruct (files_to_upload env target) as [|file files'] eqn:E; [done|]. run_py.
  split_and!; try reflexivity; [by repeat constructor|].
  split_off_suffix.
Qed.

Lemma end_of_input_at_confirmation_witness :
  res (upload_folder Scenario.online (VStr "my-item") ∅ "/data" false []) = Ok tt
  ∧ Forall (λ e, is_upload e = false)
           (events (upload_folder Scenario.online (VStr "my-item") ∅ "/data"
                      false []))
  ∧ ∃ pre,
      events (upload_folder Scenario.online (VStr "my-item") ∅ "/data" false [])
      = (pre ++ [Input confirm_prompt;
                 Print (msg_unexpected "EOF when reading a line")])%list.
Proof.
  apply (end_of_input_at_confirmation Scenario.online (VStr "my-item") ∅ "/data");
    (reflexivity || (vm_compute; discriminate)).
Defined.

(** ** One key for every file *)

Lemma descendants_head es rk :
  rk ∈ descendants (Dir es) →
  ∃ y names, rk.1 = y :: names ∧ y ∈ es.*1.
Proof.
  induction es as [|[x c] es IH]; cbn [descendants]; [by intros ?%elem_of_nil|].
  intros [->|[Hin|Hin]%elem_of_app]%elem_of_cons.
  - exists x, []. split; [done|]. apply list_elem_of_here.
  - apply list_elem_of_fmap in Hin as (rk' & -> & _).
    exists x, rk'.1. split; [done|]. apply list_elem_of_here.
  - destruct (IH Hin) as (y & names & Hrk & Hy).
    exists y, names. split; [done|]. by apply list_elem_of_further.
Qed.

Lemma descendants_nonempty n rk : rk ∈ descendants n → rk.1 ≠ [].
Proof.
  destruct n as [| |es]; [by intros ?%elem_of_nil..|].
  intros (y & names & -> & _)%descendants_head. done.
Qed.

(** In a tree whose directories list no name twice, no relative path is
    enumerated twice. *)
Lemma descendants_NoDup n :
  distinct_names n = true → NoDup (descendants n).*1.
Proof.
  induction n as [| |entries IH] using node_ind; [constructor..|].
  cbn [distinct_names descendants].
  induction IH as [|[x c] es Hc _ IHes]; [constructor|].
  intros [[Hx Hdc]%andb_true_iff Hes]%andb_true_iff.
  assert (x ∉ es.*1) as Hfresh.
  { intros ([y c'] & -> & Hin)%list_elem_of_fmap.
    rewrite forallb_forall in Hx. apply list_elem_of_In, Hx in Hin.
    cbn in Hin. by rewrite String.eqb_refl in Hin. }
  cbn [fmap list_fmap fst]. rewrite fmap_app. apply NoDup_cons. split.
  - intros [Hin|Hin]%elem_of_app.
    + apply list_elem_of_fmap in Hin as (rk & Heq & Hin).
      apply list_elem_of_fmap in Hin as (rk' & -> & Hin).
      apply descendants_nonempty in Hin. cbn in Heq. congruence.
    + apply list_elem_of_fmap in Hin as (rk & Heq & Hin).
      destruct (descendants_head es rk Hin) as (y & names & Hrk & Hy).
      rewrite Hrk in Heq. injection Heq as -> _. done.
  - apply NoDup_app. split_and!.
    + rewrite <- list_fmap_compose.
      change (fst ∘ (λ rk : list string * node, (x :: rk.1, rk.2)))
        with (cons x ∘ (fst : list string * node → list string)).
      rewrite list_fmap_compose. apply NoDup_fmap_2; [|by apply Hc].
      by intros l1 l2 [=].
    + intros rel Hin1 Hin2.
      apply list_elem_of_fmap in Hin1 as (rk & -> & Hin1).
      apply list_elem_of_fmap in Hin1 as (rk' & -> & _).
      apply list_elem_of_fmap in Hin2 as (rk & Heq & Hin2).
      destruct (descendants_head es rk Hin2) as (y & names & Hrk & Hy).
      rewrite Hrk in Heq. cbn in Heq. injection Heq as -> _. done.
    + by apply IHes.
Qed.

Lemma kept_files_NoDup script dir :
  distinct_names dir = true → NoDup (kept_files script dir).
Proof.
  intros Hd. unfold kept_files.
  eapply sublist_NoDup; [by apply descendants_NoDup|].
  apply fmap_sublist, sublist_filter.
Qed.

(** Well-formed relative paths with the same text are the same. *)
Lemma join_inj rel1 rel2 :
  wf_rel rel1 → wf_rel rel2 → Str.join rel1 = Str.join rel2 → rel1 = rel2.
Proof.
  intros [Hne1 Hv1] [Hne2 Hv2] Heq.
  by rewrite <- (split_join rel1), <- (split_join rel2), Heq.
Qed.

Lemma foldl_insert_file_lookup_other base rels d k :
  k ∉ Str.join <$> rels →
  foldl (insert_file base) d rels !! k = d !! k.
Proof.
  revert d. induction rels as [|rel rels IH]; intros d Hk; [done|].
  cbn [foldl]. rewrite fmap_cons, not_elem_of_cons in Hk. destruct Hk as [Hne Hk].
  rewrite IH by done. unfold insert_file. by rewrite lookup_insert_ne.
Qed.

Lemma foldl_insert_file_lookup_in base rels d rel :
  NoDup (Str.join <$> rels) → rel ∈ rels →
  foldl (insert_file base) d rels !! Str.join rel
  = Some (Pathlib.str (Pathlib.joinpath base rel)).
Proof.
  revert d. induction rels as [|r rels IH]; intros d Hnd Hin;
    [by apply elem_of_nil in Hin|].
  rewrite fmap_cons in Hnd. apply NoDup_cons in Hnd as [Hfresh Hnd].
  cbn [foldl]. apply elem_of_cons in Hin as [->|Hin]; [|by apply IH].
  rewrite foldl_insert_file_lookup_other by done.
  unfold insert_file. by rewrite lookup_insert_eq.
Qed.

(** X20: in a tree as a file system has it, where no directory lists a
    name twice, no two files share a key: the mapping has as many entries
    as files were enumerated, and every enumerated file is the value of a
    key. *)
Theorem file_mapping_one_key_per_file env target_folder base dir :
  target_folder = Pathlib.str base → wf_path base = true →
  lookup_node (Pathlib.names base) (fs env) = Some dir →
  wf_node dir = true → distinct_names dir = true →
  ∃ mapping,
    file_mapping env target_folder = Ok mapping
    ∧ size mapping = length (files_to_upload env target_folder)
    ∧ ∀ local_path,
        local_path ∈ files_to_upload env target_folder →
        ∃ remote_path, mapping !! remote_path = Some local_path.
Proof.
  intros -> Hbase Hdir Hwf Hdistinct.
  assert (Forall wf_rel (kept_files (script_name env) dir)) as Hrels.
  { unfold kept_files. apply Forall_fmap.
    apply Forall_filter_keep, descendants_wf, Hwf. }
  assert (NoDup (Str.join <$> kept_files (script_name env) dir)) as Hnd.
  { apply NoDup_fmap_2_strong; [|by apply kept_files_NoDup].
    rewrite Forall_forall in Hrels.
    intros rel1 rel2 H1 H2. apply join_inj; by apply Hrels. }
  unfold file_mapping.
  rewrite (files_to_upload_eq env _ base dir (Path_str base Hbase) Hdir Hwf).
  rewrite (Path_str base Hbase), build_dict_eq by done. cbn [res].
  eexists. split; [reflexivity|]. split.
  - rewrite <- size_dom, foldl_insert_file_dom, dom_empty_L.
    rewrite (left_id_L ∅ (∪)), size_list_to_set by done.
    by rewrite !length_fmap.
  - intros local (rel & -> & Hin)%list_elem_of_fmap.
    exists (Str.join rel). by apply foldl_insert_file_lookup_in.
Qed.

Lemma file_mapping_one_key_per_file_witness :
  ∃ mapping,
    file_mapping Scenario.online "/data" = Ok mapping
    ∧ size mapping = length (files_to_upload Scenario.online "/data")
    ∧ ∀ local_path,
        local_path ∈ files_to_upload Scenario.online "/data" →
        ∃ remote_path, mapping !! remote_path = Some local_path.
Proof.
  apply (file_mapping_one_key_per_file Scenario.online "/data"
           (Pathlib.mkPath "/" ["data"])
           (Dir [("a.txt", File); ("sub", Dir [("b.txt", File)])]));
    reflexivity.
Defined.

(** ** The prompts, one by one *)



Lemma prompt_loop_shown key prompt required metadata stdin metadata' :
  res (prompt_loop key prompt required metadata stdin) = Ok metadata' →
  ∃ n, (1 ≤ n)%nat ∧ (required = false → n = 1)
       ∧ List.filter is_input
           (events (prompt_loop key prompt required metadata stdin))
         = replicate n (Input (prompt +:+ ": ")).
Proof.
  induction stdin as [|line stdin IH]; cbn [prompt_loop]; [discriminate|].
  destruct (Str.nonempty (Str.strip line)); cbn [orb].
  { intros _. exists 1. by split_and!. }
  destruct required; cbn [negb]; [|intros _; exists 1; by split_and!].
  destruct (prompt_loop key prompt true metadata stdin) as [r st evs].
  cbn [res events] in *. intros Hres.
  destruct (IH Hres) as (n & Hn & _ & Hevs).
  exists (S n). split_and!; [lia|done|].
  cbn [List.filter is_input replicate]. by rewrite Hevs.
Qed.

(** X22: when [get_user_input] returns, it has shown the prompts of its
    keys in the order given, each at least once and the optional ones
    exactly once, and no other prompt. *)
Theorem prompts_are_shown_in_order keys stdin metadata :
  res (get_user_input keys stdin) = Ok metadata →
  ∃ counts,
    Forall2 (λ p n, (1 ≤ n)%nat ∧ (p.2 = false → n = 1)) keys counts
    ∧ List.filter is_input (events (get_user_input keys stdin))
      = shown keys counts.
Proof.
  rewrite get_user_input_eq. intros Hres.
  assert (res (prompt_all keys ∅ stdin) = Ok metadata) as Hall
      by by destruct (prompt_all keys ∅ stdin).
  assert (List.filter is_input
            (events (let 'mkOut r stdin' evs := prompt_all keys ∅ stdin in
                     mkOut r stdin' (Print msg_banner :: evs)))
          = List.filter is_input (events (prompt_all keys ∅ stdin))) as ->
      by by destruct (prompt_all keys ∅ stdin).
  clear Hres. revert Hall. generalize (∅ : gmap string value). revert stdin.
  induction keys as [|[[key prompt] required] keys IH]; intros stdin md.
  - intros _. exists []. split; [constructor|done].
  - cbn [prompt_all]. run_py.
    pose proof (prompt_loop_shown key prompt required md stdin) as H1.
    destruct (prompt_loop key prompt required md stdin) as [[md1|x] st evs];
      cbn [res events] in *; [|discriminate].
    destruct (H1 md1 eq_refl) as (n & Hn & Hopt & Hevs).
    specialize (IH st md1).
    destruct (prompt_all keys md1 st) as [[md'|x] st' evs'];
      cbn [res events] in *; [|discriminate].
    intros Hmd. destruct (IH Hmd) as (counts & Hcounts & Hevs').
    exists (n :: counts). split; [by constructor|].
    rewrite List.filter_app, Hevs, Hevs'. reflexivity.
Qed.

Lemma prompts_are_shown_in_order_witness :
  ∃ counts,
    Forall2 (λ p n, (1 ≤ n)%nat ∧ (p.2 = false → n = 1))
            metadata_prompts counts
    ∧ List.filter is_input (events (get_user_input metadata_prompts Typing.lines))
      = shown metadata_prompts counts.
Proof.
  apply (prompts_are_shown_in_order metadata_prompts Typing.lines Typing.record).
  vm_compute. reflexivity.
Defined.
